(** * alx_travel_app: the listings API (views.py, urls.py)

    A shallow embedding of [listings/views.py] and [listings/urls.py].
    The view sets are Python classes whose behaviour depends on which
    attribute NAMES the framework reads, so classes are modelled as
    attribute dictionaries keyed by the names written in the source, and
    attribute access follows Python's order: instance dictionary, class
    dictionary, base-class dictionary.  Handlers run in a state-and-exception
    monad over the data store. *)

From Stdlib Require Import ZArith Ascii String List Bool DecimalString.
From stdpp Require Import gmap strings list fin_maps.

Local Open Scope string_scope.
Local Open Scope Z_scope.

(** ** Principals, requests, responses *)

(** [request.user]: Django's [AnonymousUser] or a stored user (by id). *)
Inductive PyUser := AnonymousUser | AuthUser (uid : Z).

#[global] Instance PyUser_eq_dec : EqDecision PyUser.
Proof. solve_decision. Defined.

Definition is_authenticated (u : PyUser) : bool :=
  match u with AnonymousUser => false | AuthUser _ => true end.

Inductive http_method := GET | POST | PUT | PATCH | DELETE | HEAD | OPTIONS.

#[global] Instance http_method_eq_dec : EqDecision http_method.
Proof. solve_decision. Defined.

(** [rest_framework.permissions.SAFE_METHODS = ('GET', 'HEAD', 'OPTIONS')] *)
Definition SAFE_METHODS : list http_method := [GET; HEAD; OPTIONS].

Definition is_safe (m : http_method) : bool := bool_decide (m ∈ SAFE_METHODS).

(** Modelled from the spec: [listings/models.py] is not among the sources.
    Section 3 of the specification gives the status enumeration as PENDING,
    CONFIRMED, CANCELLED; the view reads [Booking.BookingStatus.CONFIRMED]
    and [Booking.BookingStatus.CANCELLED]. *)
Inductive BookingStatus := PENDING | CONFIRMED | CANCELLED.

#[global] Instance BookingStatus_eq_dec : EqDecision BookingStatus.
Proof. solve_decision. Defined.

(** Values that travel in request bodies and serializer keyword arguments. *)
Inductive fval :=
| FStr (s : string)
| FInt (z : Z)
| FUser (u : PyUser)
| FRef (pk : Z)
| FStatus (st : BookingStatus).

Record Request := {
  req_method : http_method;
  req_user : PyUser;
  req_data : gmap string fval;
  (* whether the first authenticator supplies a WWW-Authenticate header
     (decides between 401 and 403 for an unauthenticated caller) *)
  req_authenticate_header : bool
}.

(** Python exceptions that can leave a handler. *)
Inductive exn :=
| Http404
| PermissionDenied
| NotAuthenticated
| ValidationError
| AttributeError (obj attr : string)
| KeyError (key : string)
| ValueError
| TypeError
| FieldError
| IntegrityError
| MultipleObjectsReturned
| DoesNotExist
| AssertionError
| MethodNotAllowed.

Inductive result (A : Type) :=
| Ok (a : A)
| Raise (e : exn).
Arguments Ok {A} a.
Arguments Raise {A} e.

(** ** The [rest_framework.status] module

    Its attributes, by name.  Reading a name it does not define raises
    [AttributeError], as for any Python module. *)
Definition status_module : gmap string Z :=
  list_to_map
    [ ("HTTP_100_CONTINUE", 100); ("HTTP_101_SWITCHING_PROTOCOLS", 101);
      ("HTTP_102_PROCESSING", 102); ("HTTP_103_EARLY_HINTS", 103);
      ("HTTP_200_OK", 200); ("HTTP_201_CREATED", 201);
      ("HTTP_202_ACCEPTED", 202);
      ("HTTP_203_NON_AUTHORITATIVE_INFORMATION", 203);
      ("HTTP_204_NO_CONTENT", 204); ("HTTP_205_RESET_CONTENT", 205);
      ("HTTP_206_PARTIAL_CONTENT", 206); ("HTTP_207_MULTI_STATUS", 207);
      ("HTTP_208_ALREADY_REPORTED", 208); ("HTTP_226_IM_USED", 226);
      ("HTTP_300_MULTIPLE_CHOICES", 300); ("HTTP_301_MOVED_PERMANENTLY", 301);
      ("HTTP_302_FOUND", 302); ("HTTP_303_SEE_OTHER", 303);
      ("HTTP_304_NOT_MODIFIED", 304); ("HTTP_305_USE_PROXY", 305);
      ("HTTP_306_RESERVED", 306); ("HTTP_307_TEMPORARY_REDIRECT", 307);
      ("HTTP_308_PERMANENT_REDIRECT", 308);
      ("HTTP_400_BAD_REQUEST", 400); ("HTTP_401_UNAUTHORIZED", 401);
      ("HTTP_402_PAYMENT_REQUIRED", 402); ("HTTP_403_FORBIDDEN", 403);
      ("HTTP_404_NOT_FOUND", 404); ("HTTP_405_METHOD_NOT_ALLOWED", 405);
      ("HTTP_406_NOT_ACCEPTABLE", 406);
      ("HTTP_407_PROXY_AUTHENTICATION_REQUIRED", 407);
      ("HTTP_408_REQUEST_TIMEOUT", 408); ("HTTP_409_CONFLICT", 409);
      ("HTTP_410_GONE", 410); ("HTTP_411_LENGTH_REQUIRED", 411);
      ("HTTP_412_PRECONDITION_FAILED", 412);
      ("HTTP_413_REQUEST_ENTITY_TOO_LARGE", 413);
      ("HTTP_414_REQUEST_URI_TOO_LONG", 414);
      ("HTTP_415_UNSUPPORTED_MEDIA_TYPE", 415);
      ("HTTP_416_REQUESTED_RANGE_NOT_SATISFIABLE", 416);
      ("HTTP_417_EXPECTATION_FAILED", 417); ("HTTP_418_IM_A_TEAPOT", 418);
      ("HTTP_421_MISDIRECTED_REQUEST", 421);
      ("HTTP_422_UNPROCESSABLE_ENTITY", 422); ("HTTP_423_LOCKED", 423);
      ("HTTP_424_FAILED_DEPENDENCY", 424); ("HTTP_425_TOO_EARLY", 425);
      ("HTTP_426_UPGRADE_REQUIRED", 426);
      ("HTTP_428_PRECONDITION_REQUIRED", 428);
      ("HTTP_429_TOO_MANY_REQUESTS", 429);
      ("HTTP_431_REQUEST_HEADER_FIELDS_TOO_LARGE", 431);
      ("HTTP_451_UNAVAILABLE_FOR_LEGAL_REASONS", 451);
      ("HTTP_500_INTERNAL_SERVER_ERROR", 500);
      ("HTTP_501_NOT_IMPLEMENTED", 501); ("HTTP_502_BAD_GATEWAY", 502);
      ("HTTP_503_SERVICE_UNAVAILABLE", 503);
      ("HTTP_504_GATEWAY_TIMEOUT", 504);
      ("HTTP_505_HTTP_VERSION_NOT_SUPPORTED", 505);
      ("HTTP_506_VARIANT_ALSO_NEGOTIATES", 506);
      ("HTTP_507_INSUFFICIENT_STORAGE", 507);
      ("HTTP_508_LOOP_DETECTED", 508);
      ("HTTP_509_BANDWIDTH_LIMIT_EXCEEDED", 509);
      ("HTTP_510_NOT_EXTENDED", 510);
      ("HTTP_511_NETWORK_AUTHENTICATION_REQUIRED", 511) ].

(** [status.<name>] *)
Definition status_attr (name : string) : result Z :=
  match status_module !! name with
  | Some code => Ok code
  | None => Raise (AttributeError "rest_framework.status" name)
  end.

(** ** Data model *)

(** Modelled from the spec: the three entities of [listings/models.py] with
    the attributes section 3 of the specification names (primary key, slug,
    owner / guest / author, status, listing reference); every other column
    is kept, uninterpreted, in the [_fields] dictionary. *)
Record Listing := {
  listing_pk : Z;
  listing_slug : string;
  listing_owner : Z;
  listing_fields : gmap string fval
}.

Record Booking := {
  booking_pk : Z;
  booking_guest : Z;
  booking_status : BookingStatus;
  booking_listing : Z;
  booking_fields : gmap string fval
}.

Record Review := {
  review_pk : Z;
  review_author : Z;
  review_listing : Z;
  review_fields : gmap string fval
}.

(** The data store: one table per model, rows in insertion order. *)
Record Store := {
  users : list Z;
  listings : list Listing;
  bookings : list Booking;
  reviews : list Review
}.

(** ** The handler monad: state (the store) and exceptions *)

Definition M (A : Type) : Type := Store -> Store * result A.

Definition ret {A} (a : A) : M A := fun s => (s, Ok a).
Definition raise {A} (e : exn) : M A := fun s => (s, Raise e).
Definition bind {A B} (c : M A) (k : A -> M B) : M B :=
  fun s => match c s with
           | (s', Ok a) => k a s'
           | (s', Raise e) => (s', Raise e)
           end.
Definition lift {A} (r : result A) : M A := fun s => (s, r).

Notation "'let*' x ':=' c 'in' k" := (bind c (fun x => k))
  (at level 10, x pattern, c at level 100, k at level 200).

(** ** Classes as attribute dictionaries *)

Inductive permission_class :=
| AllowAny
| IsAuthenticated
| IsAuthenticatedOrReadOnly
| IsOwnerOrReadOnly.

#[global] Instance permission_class_eq_dec : EqDecision permission_class.
Proof. solve_decision. Defined.

Inductive serializer_class :=
| UserSerializer
| ListingSerializer
| ListingDetailSerializer
| BookingSerializer
| ReviewSerializer.

#[global] Instance serializer_class_eq_dec : EqDecision serializer_class.
Proof. solve_decision. Defined.

Inductive model := UserModel | ListingModel | BookingModel | ReviewModel.

(** What a class or instance attribute of a view set can hold. *)
Inductive attr :=
| AStr (s : string)
| APerms (ps : list permission_class)
| ASerializer (c : serializer_class)
| AAll (m : model)          (* [<Model>.objects.all()] *)
| ANone.

(** The four view sets of views.py. *)
Inductive viewset := UserViewset | ListingViewset | BookingViewset | ReviewViewSet.

#[global] Instance viewset_eq_dec : EqDecision viewset.
Proof. solve_decision. Defined.

(** The attributes each class statement of views.py binds, under the names
    written there (methods are the functions further down). *)
Definition class_dict (c : viewset) : gmap string attr :=
  match c with
  | UserViewset =>
      {[ "queryset" := AAll UserModel;
         "serializer_class" := ASerializer UserSerializer;
         "permission_classes" := APerms [IsAuthenticated] ]}
  | ListingViewset =>
      {[ "queryset" := AAll ListingModel;
         "lookkup_field" := AStr "slug" ]}
  | BookingViewset =>
      {[ "serializer_class" := ASerializer BookingSerializer;
         "permission_classes" := APerms [IsAuthenticated; IsOwnerOrReadOnly] ]}
  | ReviewViewSet =>
      {[ "serializer_class" := ASerializer ReviewSerializer;
         "permission_class" :=
           APerms [IsAuthenticatedOrReadOnly; IsOwnerOrReadOnly] ]}
  end.

(** A view instance: its class, its own [__dict__], and what the framework
    stores on it before the handler runs ([action], [kwargs], [request]). *)
Record View := {
  v_class : viewset;
  v_dict : gmap string attr;
  v_action : option string;
  v_kwargs : gmap string string;
  v_request : Request
}.

(** [self.<name> = value] *)
Definition setattr (self : View) (name : string) (value : attr) : View :=
  {| v_class := v_class self;
     v_dict := <[name := value]> (v_dict self);
     v_action := v_action self;
     v_kwargs := v_kwargs self;
     v_request := v_request self |}.

(** [self.kwargs[key]] *)
Definition kwargs_item (self : View) (key : string) : result string :=
  match v_kwargs self !! key with
  | Some v => Ok v
  | None => Raise (KeyError key)
  end.

(** Objects handed to object-level permission checks and to responses. *)
Inductive Obj :=
| OUser (u : Z)
| OListing (l : Listing)
| OBooking (b : Booking)
| OReview (r : Review).

(** Response bodies: a literal dictionary, what a serializer class renders
    for one object or for a query set, the body the framework's exception
    handler renders from an exception (a ['detail'] message for 401, 403,
    404 and 405, the validation errors for 400; the text is not modelled),
    or no body at all (204). *)
Inductive payload :=
| PDict (entries : list (string * string))
| POne (c : serializer_class) (o : Obj)
| PMany (c : serializer_class) (os : list Obj)
| PError
| PNone.

Record Response := {
  resp_data : payload;
  resp_status : Z
}.

(** What the client gets: a response, or Django's 500 page for an
    exception no handler knows.  [MetadataAnswer] is the outcome of an
    OPTIONS request that passed the permission check: [APIView.options]
    hands it to the metadata class, which probes [check_permissions],
    [get_object] and [get_serializer] and ends in a metadata document or in
    an exception of those calls; it writes nothing, and which of the two it
    is is not modelled. *)
Inductive outcome :=
| Responded (r : Response)
| ServerError (e : exn)
| MetadataAnswer.

Section Api.

(** The project's settings module is not among the sources: the value of
    [REST_FRAMEWORK['DEFAULT_PERMISSION_CLASSES']] (the framework's own
    default is [[AllowAny]]) is a parameter. *)
Variable DEFAULT_PERMISSION_CLASSES : list permission_class.

(** [listings/permissions.py] is not among the sources: which attribute of
    an object [IsOwnerOrReadOnly] compares with the requester is a
    parameter; [None] stands for an object without that attribute. *)
Variable owner_field : Obj -> option Z.

(** Python's built-in [int] on a URL path segment ([None]: [ValueError]). *)
Variable py_int : string -> option Z.

(** [listings/serializers.py] is not among the sources: field validation
    ([serializer.is_valid]) is a parameter; [None] stands for invalid
    data. *)
Variable run_validation :
  serializer_class -> gmap string fval -> option (gmap string fval).

(** The framework's class attributes that the view sets inherit
    ([rest_framework.views.APIView], [rest_framework.generics.GenericAPIView]). *)
Definition base_dict : gmap string attr :=
  {[ "permission_classes" := APerms DEFAULT_PERMISSION_CLASSES;
     "queryset" := ANone;
     "serializer_class" := ANone;
     "lookup_field" := AStr "pk";
     "lookup_url_kwarg" := ANone ]}.

(** [getattr(cls, name)]: the class statement first, then the bases. *)
Definition class_getattr (c : viewset) (name : string) : option attr :=
  match class_dict c !! name with
  | Some a => Some a
  | None => base_dict !! name
  end.

(** [self.<name>]: the instance dictionary first, then the class. *)
Definition getattr (self : View) (name : string) : result attr :=
  match v_dict self !! name with
  | Some a => Ok a
  | None =>
      match class_getattr (v_class self) name with
      | Some a => Ok a
      | None => Raise (AttributeError "view" name)
      end
  end.

(** ** Permissions *)

(** [has_permission(request, view)] of the framework's classes.
    [IsOwnerOrReadOnly] (see below) is an object-level predicate in the
    specification, so at view level it is [BasePermission.has_permission],
    which allows. *)
Definition has_permission (p : permission_class) (request : Request) : bool :=
  match p with
  | AllowAny => true
  | IsAuthenticated => is_authenticated (req_user request)
  | IsAuthenticatedOrReadOnly =>
      is_safe (req_method request) || is_authenticated (req_user request)
  | IsOwnerOrReadOnly => true
  end.

(** Modelled from the spec: [IsOwnerOrReadOnly] of the missing
    [listings/permissions.py]; section 9: "object O is mutable by principal
    P iff P.safe_method OR P == O.owner_field". *)
Definition IsOwnerOrReadOnly_has_object_permission
    (request : Request) (obj : Obj) : result bool :=
  if is_safe (req_method request) then Ok true
  else match owner_field obj with
       | Some u => Ok (bool_decide (AuthUser u = req_user request))
       | None => Raise (AttributeError "object" "owner")
       end.

Definition has_object_permission
    (p : permission_class) (request : Request) (obj : Obj) : result bool :=
  match p with
  | IsOwnerOrReadOnly => IsOwnerOrReadOnly_has_object_permission request obj
  | _ => Ok true
  end.

(** [APIView.get_permissions]: instantiate [self.permission_classes]. *)
Definition APIView_get_permissions (self : View) : result (list permission_class) :=
  match getattr self "permission_classes" with
  | Ok (APerms ps) => Ok ps
  | Ok _ => Raise TypeError
  | Raise e => Raise e
  end.

(** [ListingViewset.get_permissions] (views.py 43-53). *)
Definition ListingViewset_get_permissions (self : View)
  : View * result (list permission_class) :=
  let self' :=
    if bool_decide (v_action self ∈ [Some "list"; Some "retrieve"])
    then setattr self "permissions_classes" (APerms [AllowAny])
    else setattr self "permissions_classes"
           (APerms [IsAuthenticated; IsOwnerOrReadOnly]) in
  (self', APIView_get_permissions self').

(** Method resolution for [self.get_permissions()]. *)
Definition get_permissions (self : View) : View * result (list permission_class) :=
  match v_class self with
  | ListingViewset => ListingViewset_get_permissions self
  | _ => (self, APIView_get_permissions self)
  end.

(** [APIView.permission_denied]: [NotAuthenticated] for a request that no
    authenticator recognised, [PermissionDenied] otherwise. *)
Definition permission_denied (request : Request) : exn :=
  if is_authenticated (req_user request) then PermissionDenied
  else NotAuthenticated.

(** [APIView.check_permissions] *)
Fixpoint check_each (ps : list permission_class) (request : Request) : result unit :=
  match ps with
  | [] => Ok tt
  | p :: ps' =>
      if has_permission p request then check_each ps' request
      else Raise (permission_denied request)
  end.

Definition check_permissions (self : View) : View * result unit :=
  match get_permissions self with
  | (self', Ok ps) => (self', check_each ps (v_request self'))
  | (self', Raise e) => (self', Raise e)
  end.

(** [APIView.check_object_permissions] *)
Fixpoint check_each_object (ps : list permission_class) (request : Request)
    (obj : Obj) : result unit :=
  match ps with
  | [] => Ok tt
  | p :: ps' =>
      match has_object_permission p request obj with
      | Ok true => check_each_object ps' request obj
      | Ok false => Raise (permission_denied request)
      | Raise e => Raise e
      end
  end.

Definition check_object_permissions (self : View) (obj : Obj) : View * result unit :=
  match get_permissions self with
  | (self', Ok ps) => (self', check_each_object ps (v_request self') obj)
  | (self', Raise e) => (self', Raise e)
  end.

(** ** Query sets *)

Definition listing_has_slug (s : Store) (pk : Z) (slug : string) : bool :=
  existsb (fun l => (listing_pk l =? pk) && String.eqb (listing_slug l) slug)
          (listings s).

(** [BookingViewset.get_queryset] (views.py 70-72):
    [Booking.objects.filter(guest=self.request.user)].  The ORM rejects an
    [AnonymousUser] as the value of a foreign key. *)
Definition BookingViewset_get_queryset (self : View) : M (list Obj) :=
  fun s =>
    match req_user (v_request self) with
    | AuthUser u =>
        (s, Ok (OBooking <$>
                  filter (fun b => booking_guest b = u) (bookings s)))
    | AnonymousUser => (s, Raise TypeError)
    end.

(** [ReviewViewSet.get_queryset] (views.py 97-99):
    [Review.objects.filter(listing__slug=self.kwargs['listing_slug'])]. *)
Definition ReviewViewSet_get_queryset (self : View) : M (list Obj) :=
  let* slug := lift (kwargs_item self "listing_slug") in
  fun s =>
    (s, Ok (OReview <$>
              filter (fun r => listing_has_slug s (review_listing r) slug = true)
                     (reviews s))).

(** [GenericAPIView.get_queryset]: the class attribute [queryset]. *)
Definition GenericAPIView_get_queryset (self : View) : M (list Obj) :=
  let* q := lift (getattr self "queryset") in
  fun s =>
    match q with
    | AAll ListingModel => (s, Ok (OListing <$> listings s))
    | AAll BookingModel => (s, Ok (OBooking <$> bookings s))
    | AAll ReviewModel => (s, Ok (OReview <$> reviews s))
    | AAll UserModel => (s, Ok (OUser <$> users s))
    | _ => (s, Raise TypeError)
    end.

(** Method resolution for [self.get_queryset()]. *)
Definition get_queryset (self : View) : M (list Obj) :=
  match v_class self with
  | BookingViewset => BookingViewset_get_queryset self
  | ReviewViewSet => ReviewViewSet_get_queryset self
  | _ => GenericAPIView_get_queryset self
  end.

Definition obj_pk (o : Obj) : Z :=
  match o with
  | OUser u => u
  | OListing l => listing_pk l
  | OBooking b => booking_pk b
  | OReview r => review_pk r
  end.

(** One keyword of [queryset.get(field=value)] with the value a URL path
    segment: does the row match?  A segment that is not a number raises
    [ValueError] for the primary key; an unknown field is a [FieldError]. *)
Definition field_matches (field value : string) (o : Obj) : result bool :=
  if bool_decide (field = "pk") then
    match py_int value with
    | Some n => Ok (obj_pk o =? n)
    | None => Raise ValueError
    end
  else
    match o with
    | OListing l =>
        if bool_decide (field = "slug") then Ok (String.eqb (listing_slug l) value)
        else Raise FieldError
    | _ => Raise FieldError
    end.

Fixpoint filter_by (field value : string) (q : list Obj) : result (list Obj) :=
  match q with
  | [] => Ok []
  | o :: q' =>
      match field_matches field value o with
      | Raise e => Raise e
      | Ok keep =>
          match filter_by field value q' with
          | Raise e => Raise e
          | Ok rest => Ok (if keep then o :: rest else rest)
          end
      end
  end.

(** [rest_framework.generics.get_object_or_404]: [queryset.get] on the
    one keyword, with [DoesNotExist], [TypeError], [ValueError] and [ValidationError]
    turned into [Http404]. *)
Definition get_object_or_404 (q : list Obj) (field value : string) : result Obj :=
  match filter_by field value q with
  | Ok [o] => Ok o
  | Ok [] => Raise Http404
  | Ok _ => Raise MultipleObjectsReturned
  | Raise ValueError | Raise TypeError | Raise ValidationError => Raise Http404
  | Raise e => Raise e
  end.

(** [self.lookup_field] and [self.lookup_url_kwarg or self.lookup_field]. *)
Definition lookup_field (self : View) : result string :=
  match getattr self "lookup_field" with
  | Ok (AStr f) => Ok f
  | Ok _ => Raise TypeError
  | Raise e => Raise e
  end.

Definition lookup_url_kwarg (self : View) : result string :=
  match getattr self "lookup_url_kwarg" with
  | Ok (AStr k) => Ok k
  | Ok _ => lookup_field self
  | Raise e => Raise e
  end.

(** [GenericAPIView.get_object].  The view sets declare no filter
    backends, so [filter_queryset] returns the query set as it is. *)
Definition get_object (self : View) : M Obj :=
  let* queryset := get_queryset self in
  let* url_kwarg := lift (lookup_url_kwarg self) in
  let* field := lift (lookup_field self) in
  let* value :=
    lift (match v_kwargs self !! url_kwarg with   (* assert ... in self.kwargs *)
          | Some v => Ok v
          | None => Raise AssertionError
          end) in
  let* obj := lift (get_object_or_404 queryset field value) in
  let* _ := lift (snd (check_object_permissions self obj)) in
  ret obj.

(** ** Model instances: create, save, delete

    Modelled from the spec: the managers and [save]/[delete] of the models
    in the missing [listings/models.py], over the attributes section 3 of
    the specification names: a listing has a unique slug and an owner, a
    booking a guest, a listing and a status (PENDING when none is given), a
    review an author and a listing. *)

Definition next_pk (pks : list Z) : Z := 1 + foldr Z.max 0 pks.

(** A foreign key to the user table needs a stored user. *)
Definition user_value (v : option fval) : result Z :=
  match v with
  | Some (FUser (AuthUser u)) => Ok u
  | Some _ => Raise ValueError
  | None => Raise IntegrityError
  end.

Definition ref_value (v : option fval) : result Z :=
  match v with
  | Some (FRef pk) => Ok pk
  | Some _ => Raise ValueError
  | None => Raise IntegrityError
  end.

Definition with_listings (s : Store) (ls : list Listing) : Store :=
  {| users := users s; listings := ls; bookings := bookings s; reviews := reviews s |}.
Definition with_bookings (s : Store) (bs : list Booking) : Store :=
  {| users := users s; listings := listings s; bookings := bs; reviews := reviews s |}.
Definition with_reviews (s : Store) (rs : list Review) : Store :=
  {| users := users s; listings := listings s; bookings := bookings s; reviews := rs |}.
Definition with_users (s : Store) (us : list Z) : Store :=
  {| users := us; listings := listings s; bookings := bookings s; reviews := reviews s |}.

(** [<Model>.objects.create] with the keywords [vd]. *)
Definition objects_create (m : model) (vd : gmap string fval) : M Obj :=
  fun s =>
    match m with
    | UserModel =>
        let u := next_pk (users s) in
        (with_users s (users s ++ [u]), Ok (OUser u))
    | ListingModel =>
        match user_value (vd !! "owner") with
        | Raise e => (s, Raise e)
        | Ok u =>
            let slug := match vd !! "slug" with Some (FStr x) => x | _ => "" end in
            if existsb (fun l => String.eqb (listing_slug l) slug) (listings s)
            then (s, Raise IntegrityError)
            else
              let l := {| listing_pk := next_pk (listing_pk <$> listings s);
                          listing_slug := slug;
                          listing_owner := u;
                          listing_fields := delete "owner" (delete "slug" vd) |} in
              (with_listings s (listings s ++ [l]), Ok (OListing l))
        end
    | BookingModel =>
        match user_value (vd !! "guest"), ref_value (vd !! "listing") with
        | Raise e, _ | Ok _, Raise e => (s, Raise e)
        | Ok u, Ok lpk =>
            let st := match vd !! "status" with Some (FStatus x) => x | _ => PENDING end in
            let b := {| booking_pk := next_pk (booking_pk <$> bookings s);
                        booking_guest := u;
                        booking_status := st;
                        booking_listing := lpk;
                        booking_fields :=
                          delete "guest" (delete "listing" (delete "status" vd)) |} in
            (with_bookings s (bookings s ++ [b]), Ok (OBooking b))
        end
    | ReviewModel =>
        match user_value (vd !! "author"), ref_value (vd !! "listing") with
        | Raise e, _ | Ok _, Raise e => (s, Raise e)
        | Ok u, Ok lpk =>
            let r := {| review_pk := next_pk (review_pk <$> reviews s);
                        review_author := u;
                        review_listing := lpk;
                        review_fields := delete "author" (delete "listing" vd) |} in
            (with_reviews s (reviews s ++ [r]), Ok (OReview r))
        end
    end.

(** [instance.save()] of an instance read from the store: the row with its
    primary key is overwritten with the instance's attributes. *)
Definition save (o : Obj) : M unit :=
  fun s =>
    match o with
    | OUser _ => (s, Ok tt)
    | OListing l =>
        (with_listings s
           ((fun r => if listing_pk r =? listing_pk l then l else r) <$> listings s),
         Ok tt)
    | OBooking b =>
        (with_bookings s
           ((fun r => if booking_pk r =? booking_pk b then b else r) <$> bookings s),
         Ok tt)
    | OReview x =>
        (with_reviews s
           ((fun r => if review_pk r =? review_pk x then x else r) <$> reviews s),
         Ok tt)
    end.

(** Deleting the listings that satisfy [gone], together with the bookings
    and reviews that refer to them. *)
Definition delete_listings (gone : Listing -> Prop)
    `{forall l, Decision (gone l)} (s : Store) : Store :=
  let dead := listing_pk <$> filter gone (listings s) in
  {| users := users s;
     listings := filter (fun l => ~ gone l) (listings s);
     bookings := filter (fun b => booking_listing b ∉ dead) (bookings s);
     reviews := filter (fun r => review_listing r ∉ dead) (reviews s) |}.

(** [instance.delete()].  Rows that refer to the deleted row go with it
    (the foreign keys of section 3 taken with Django's customary
    [on_delete=CASCADE]): the bookings and reviews of a deleted listing,
    and the listings, bookings and reviews of a deleted user. *)
Definition delete_instance (o : Obj) : M unit :=
  fun s =>
    match o with
    | OUser u =>
        let s1 := delete_listings (fun l => listing_owner l = u) s in
        ({| users := filter (fun r => r <> u) (users s1);
            listings := listings s1;
            bookings := filter (fun b => booking_guest b <> u) (bookings s1);
            reviews := filter (fun r => review_author r <> u) (reviews s1) |},
         Ok tt)
    | OListing l =>
        (delete_listings (fun r => listing_pk r = listing_pk l) s, Ok tt)
    | OBooking b =>
        (with_bookings s
           (filter (fun r => booking_pk r <> booking_pk b) (bookings s)), Ok tt)
    | OReview x =>
        (with_reviews s
           (filter (fun r => review_pk r <> review_pk x) (reviews s)), Ok tt)
    end.

(** [setattr(instance, name, value)] for every validated item. *)
Definition set_attrs (vd : gmap string fval) (o : Obj) : result Obj :=
  match o with
  | OUser u => Ok (OUser u)
  | OListing l =>
      match (match vd !! "owner" with
             | None => Ok (listing_owner l)
             | v => user_value v
             end) with
      | Raise e => Raise e
      | Ok u =>
          Ok (OListing
                {| listing_pk := listing_pk l;
                   listing_slug :=
                     match vd !! "slug" with Some (FStr x) => x | _ => listing_slug l end;
                   listing_owner := u;
                   listing_fields :=
                     delete "owner" (delete "slug" vd) ∪ listing_fields l |})
      end
  | OBooking b =>
      match (match vd !! "guest" with
             | None => Ok (booking_guest b)
             | v => user_value v
             end),
            (match vd !! "listing" with
             | None => Ok (booking_listing b)
             | v => ref_value v
             end) with
      | Raise e, _ | Ok _, Raise e => Raise e
      | Ok u, Ok lpk =>
          Ok (OBooking
                {| booking_pk := booking_pk b;
                   booking_guest := u;
                   booking_status :=
                     match vd !! "status" with
                     | Some (FStatus x) => x
                     | _ => booking_status b
                     end;
                   booking_listing := lpk;
                   booking_fields :=
                     delete "guest" (delete "listing" (delete "status" vd))
                     ∪ booking_fields b |})
      end
  | OReview r =>
      match (match vd !! "author" with
             | None => Ok (review_author r)
             | v => user_value v
             end),
            (match vd !! "listing" with
             | None => Ok (review_listing r)
             | v => ref_value v
             end) with
      | Raise e, _ | Ok _, Raise e => Raise e
      | Ok u, Ok lpk =>
          Ok (OReview
                {| review_pk := review_pk r;
                   review_author := u;
                   review_listing := lpk;
                   review_fields :=
                     delete "author" (delete "listing" vd) ∪ review_fields r |})
      end
  end.

(** [Listing.objects.get(slug=...)] *)
Definition Listing_objects_get_slug (slug : string) : M Listing :=
  fun s =>
    match filter (fun l => listing_slug l = slug) (listings s) with
    | [l] => (s, Ok l)
    | [] => (s, Raise DoesNotExist)
    | _ => (s, Raise MultipleObjectsReturned)
    end.

(** ** Serializers *)

(** A serializer object after [is_valid()]. *)
Record Serializer := {
  ser_class : serializer_class;
  ser_instance : option Obj;
  ser_validated_data : gmap string fval
}.

(** Modelled from the spec: [Meta.model] of the serializers of the missing
    [listings/serializers.py]: each serializer renders the entity it is
    named after. *)
Definition Meta_model (c : serializer_class) : model :=
  match c with
  | UserSerializer => UserModel
  | ListingSerializer | ListingDetailSerializer => ListingModel
  | BookingSerializer => BookingModel
  | ReviewSerializer => ReviewModel
  end.

(** [BaseSerializer.save]: the keyword arguments are laid over the
    validated data, then the instance is created or updated.  The result is
    the serializer with [instance] set. *)
Definition Serializer_save (ser : Serializer) (kwargs : gmap string fval)
  : M Serializer :=
  let validated_data := kwargs ∪ ser_validated_data ser in
  let* instance :=
    match ser_instance ser with
    | Some old =>
        let* o := lift (set_attrs validated_data old) in
        let* _ := save o in
        ret o
    | None => objects_create (Meta_model (ser_class ser)) validated_data
    end in
  ret {| ser_class := ser_class ser;
         ser_instance := Some instance;
         ser_validated_data := ser_validated_data ser |}.

(** ** The view sets' methods *)

(** [ListingViewset.get_serializer_class] (views.py 33-41). *)
Definition ListingViewset_get_serializer_class (self : View) : serializer_class :=
  if bool_decide (v_action self = Some "retireve") then ListingDetailSerializer
  else ListingSerializer.

(** Method resolution for [self.get_serializer_class()]; the inherited one
    returns the class attribute [serializer_class]. *)
Definition get_serializer_class (self : View) : result serializer_class :=
  match v_class self with
  | ListingViewset => Ok (ListingViewset_get_serializer_class self)
  | _ =>
      match getattr self "serializer_class" with
      | Ok (ASerializer c) => Ok c
      | Ok _ => Raise AssertionError
      | Raise e => Raise e
      end
  end.

(** [ListingViewset.perform_create] (views.py 55-57). *)
Definition ListingViewset_perform_create (self : View) (serializer : Serializer)
  : M Serializer :=
  Serializer_save serializer {[ "owner" := FUser (req_user (v_request self)) ]}.

(** [BookingViewset.perform_create] (views.py 74-76). *)
Definition BookingViewset_perform_create (self : View) (serializer : Serializer)
  : M Serializer :=
  Serializer_save serializer {[ "guest" := FUser (req_user (v_request self)) ]}.

(** [ReviewViewSet.perform_create] (views.py 101-104). *)
Definition ReviewViewSet_perform_create (self : View) (serializer : Serializer)
  : M Serializer :=
  let* slug := lift (kwargs_item self "listing<-slug") in
  let* listing := Listing_objects_get_slug slug in
  Serializer_save serializer
    {[ "author" := FUser (req_user (v_request self));
       "listing" := FRef (listing_pk listing) ]}.

(** Method resolution for [self.perform_create(serializer)]; the inherited
    one is [serializer.save()]. *)
Definition perform_create (self : View) (serializer : Serializer) : M Serializer :=
  match v_class self with
  | ListingViewset => ListingViewset_perform_create self serializer
  | BookingViewset => BookingViewset_perform_create self serializer
  | ReviewViewSet => ReviewViewSet_perform_create self serializer
  | UserViewset => Serializer_save serializer ∅
  end.

(** [serializer.is_valid(raise_exception=True)] on the request body. *)
Definition validated (c : serializer_class) (request : Request)
  : result (gmap string fval) :=
  match run_validation c (req_data request) with
  | Some vd => Ok vd
  | None => Raise ValidationError
  end.

Definition rendered (ser : Serializer) : payload :=
  match ser_instance ser with
  | Some o => POne (ser_class ser) o
  | None => PNone
  end.

(** [ListModelMixin.list] (the view sets declare no pagination class) *)
Definition list_action (self : View) : M Response :=
  let* queryset := get_queryset self in
  let* c := lift (get_serializer_class self) in
  ret {| resp_data := PMany c queryset; resp_status := 200 |}.

(** [RetrieveModelMixin.retrieve] *)
Definition retrieve (self : View) : M Response :=
  let* instance := get_object self in
  let* c := lift (get_serializer_class self) in
  ret {| resp_data := POne c instance; resp_status := 200 |}.

(** [CreateModelMixin.create] *)
Definition create (self : View) : M Response :=
  let* c := lift (get_serializer_class self) in
  let* vd := lift (validated c (v_request self)) in
  let* serializer :=
    perform_create self
      {| ser_class := c; ser_instance := None; ser_validated_data := vd |} in
  ret {| resp_data := rendered serializer; resp_status := 201 |}.

(** [UpdateModelMixin.update] and [partial_update] *)
Definition update (self : View) : M Response :=
  let* instance := get_object self in
  let* c := lift (get_serializer_class self) in
  let* vd := lift (validated c (v_request self)) in
  let* serializer :=
    Serializer_save
      {| ser_class := c; ser_instance := Some instance; ser_validated_data := vd |}
      ∅ in
  ret {| resp_data := rendered serializer; resp_status := 200 |}.

(** [DestroyModelMixin.destroy] *)
Definition destroy (self : View) : M Response :=
  let* instance := get_object self in
  let* _ := delete_instance instance in
  ret {| resp_data := PNone; resp_status := 204 |}.

(** [BookingViewset.cancel] (views.py 78-86).  Line 83 is the expression
    statement [booking.status == Booking.BookingStatus.CANCELLED]: a
    comparison whose value is dropped. *)
Definition BookingViewset_cancel (self : View) : M Response :=
  let* obj := get_object self in
  match obj with
  | OBooking booking =>
      if bool_decide (booking_status booking = CONFIRMED) then
        let _ := bool_decide (booking_status booking = CANCELLED) in
        let* _ := save (OBooking booking) in
        let* code := lift (status_attr "HTTP_200_OK") in
        ret {| resp_data := PDict [("status", "Booking cancelled")];
               resp_status := code |}
      else
        let* code := lift (status_attr "HTT_400_BAD_REQUEST") in
        ret {| resp_data := PDict [("error", "Booking cannot be cancelled")];
               resp_status := code |}
  | _ => raise TypeError
  end.

(** ** Dispatch *)

(** The handler the router bound to the request's method, for the methods
    other than OPTIONS (which [dispatch] answers without it). *)
Definition handler (self : View) : M Response :=
  match v_action self with
  | None => raise MethodNotAllowed
  | Some a =>
      if String.eqb a "list" then list_action self
      else if String.eqb a "create" then create self
      else if String.eqb a "retrieve" then retrieve self
      else if String.eqb a "update" then update self
      else if String.eqb a "partial_update" then update self
      else if String.eqb a "destroy" then destroy self
      else if String.eqb a "cancel" then
        match v_class self with
        | BookingViewset => BookingViewset_cancel self
        | _ => raise (AttributeError "view" a)
        end
      else raise (AttributeError "view" a)
  end.

Definition error_response (code : Z) : outcome :=
  Responded {| resp_data := PError; resp_status := code |}.

(** [APIView.handle_exception] with the framework's [exception_handler]:
    API exceptions, [Http404] and [PermissionDenied] become responses, any
    other exception is raised again. *)
Definition handle_exception (request : Request) (e : exn) : outcome :=
  match e with
  | NotAuthenticated =>
      error_response (if req_authenticate_header request then 401 else 403)
  | PermissionDenied => error_response 403
  | Http404 => error_response 404
  | ValidationError => error_response 400
  | MethodNotAllowed => error_response 405
  | _ => ServerError e
  end.

(** [self.action == 'metadata']: the request is an OPTIONS request. *)
Definition is_metadata (action : option string) : bool :=
  match action with
  | Some a => String.eqb a "metadata"
  | None => false
  end.

(** [APIView.dispatch]: [initial] (the permission check), then the
    handler; exceptions of either go through [handle_exception]. *)
Definition dispatch (self : View) (s : Store) : Store * outcome :=
  match check_permissions self with
  | (_, Raise e) => (s, handle_exception (v_request self) e)
  | (self', Ok _) =>
      if is_metadata (v_action self') then (s, MetadataAnswer)
      else
        match handler self' s with
        | (s', Ok r) => (s', Responded r)
        | (s', Raise e) => (s', handle_exception (v_request self) e)
        end
  end.

(** ** The routers of urls.py *)

Record registration := {
  reg_prefix : string;
  reg_viewset : viewset;
  reg_basename : string
}.

(** [router] (urls.py 12-15). *)
Definition router : list registration :=
  [ {| reg_prefix := "users"; reg_viewset := UserViewset;
       reg_basename := "users" |};
    {| reg_prefix := "listings"; reg_viewset := ListingViewset;
       reg_basename := "listings" |};
    {| reg_prefix := "bookings"; reg_viewset := BookingViewset;
       reg_basename := "bookings" |} ].

(** [SimpleRouter.get_lookup_regex]: the name of the URL group that
    captures the instance, [lookup_prefix] followed by the class's
    [lookup_url_kwarg or lookup_field] ([getattr] with default ['pk']). *)
Definition get_lookup_group (c : viewset) (lookup_prefix : string) : string :=
  let lookup_field :=
    match class_getattr c "lookup_field" with
    | Some (AStr f) => f
    | _ => "pk"
    end in
  lookup_prefix ++
  match class_getattr c "lookup_url_kwarg" with
  | Some (AStr k) => k
  | _ => lookup_field
  end.

Definition find_registration (registry : list registration) (prefix : string)
  : option registration :=
  find (fun r => String.eqb (reg_prefix r) prefix) registry.

(** [listings_router] (urls.py 19-20):
    [NestedSimpleRouter(router, r'listings', lookup='listing')] with
    [reviews] registered on it.  The parent's URL group is named by the
    parent view set registered under the prefix, with [lookup + '_'] in
    front. *)
Record nested_router := {
  parent_prefix : string;
  nest_prefix : string;
  nested_registry : list registration
}.

Definition listings_router : nested_router :=
  {| parent_prefix := "listings";
     nest_prefix := "listing" ++ "_";
     nested_registry :=
       [ {| reg_prefix := "reviews"; reg_viewset := ReviewViewSet;
            reg_basename := "listing-reviews" |} ] |}.

Definition parent_lookup_group (n : nested_router) : option string :=
  match find_registration router (parent_prefix n) with
  | Some r => Some (get_lookup_group (reg_viewset r) (nest_prefix n))
  | None => None
  end.

(** The routes a router builds for a view set: the collection, one
    instance, and the extra [@action(detail=True)] methods. *)
Definition list_mapping : list (http_method * string) :=
  [ (GET, "list"); (POST, "create") ].
Definition detail_mapping : list (http_method * string) :=
  [ (GET, "retrieve"); (PUT, "update"); (PATCH, "partial_update");
    (DELETE, "destroy") ].
Definition extra_detail_actions (c : viewset) : list (string * list (http_method * string)) :=
  match c with
  | BookingViewset => [ ("cancel", [ (POST, "cancel") ]) ]
  | _ => []
  end.

Definition mapping_get (mapping : list (http_method * string)) (m : http_method)
  : option string :=
  snd <$> find (fun e => bool_decide (fst e = m)) mapping.

(** [self.action] as [ViewSetMixin] sets it: OPTIONS is ['metadata'], HEAD
    follows GET, a method the route does not map has no action. *)
Definition action_of (mapping : list (http_method * string)) (m : http_method)
  : option string :=
  match m with
  | OPTIONS => Some "metadata"
  | HEAD => mapping_get mapping GET
  | _ => mapping_get mapping m
  end.

(** A path segment matched by the routers' lookup pattern [[^/.]+]. *)
Fixpoint no_dot (s : string) : bool :=
  match s with
  | EmptyString => true
  | String c s' => negb (Ascii.eqb c "."%char) && no_dot s'
  end.
Definition valid_segment (s : string) : bool :=
  negb (String.eqb s "") && no_dot s.

(** The URL patterns that [SimpleRouter.get_urls] builds for the
    registrations of [router] and of [listings_router], matched against a
    path given as its segments: the patterns of [router] first, then those
    of [listings_router].  These are the routes to the view sets without a
    format suffix; [urlpatterns] below adds what [DefaultRouter] and the
    third entry of urls.py 22-26 put beside them. *)
Definition resolve (m : http_method) (path : list string)
  : option (viewset * option string * gmap string string) :=
  match path with
  | [prefix] =>
      r ← find_registration router prefix;
      Some (reg_viewset r, action_of list_mapping m, ∅)
  | [prefix; seg] =>
      r ← find_registration router prefix;
      if valid_segment seg then
        Some (reg_viewset r, action_of detail_mapping m,
              {[ get_lookup_group (reg_viewset r) "" := seg ]})
      else None
  | [prefix; seg; third] =>
      match
        r ← find_registration router prefix;
        mapping ← snd <$> find (fun e => String.eqb (fst e) third)
                            (extra_detail_actions (reg_viewset r));
        if valid_segment seg then
          Some (reg_viewset r, action_of mapping m,
                {[ get_lookup_group (reg_viewset r) "" := seg ]})
        else None
      with
      | Some found => Some found
      | None =>
          if String.eqb prefix (parent_prefix listings_router) && valid_segment seg then
            group ← parent_lookup_group listings_router;
            r ← find_registration (nested_registry listings_router) third;
            Some (reg_viewset r, action_of list_mapping m, {[ group := seg ]})
          else None
      end
  | [prefix; seg; third; seg2] =>
      if String.eqb prefix (parent_prefix listings_router)
         && valid_segment seg && valid_segment seg2 then
        group ← parent_lookup_group listings_router;
        r ← find_registration (nested_registry listings_router) third;
        Some (reg_viewset r, action_of detail_mapping m,
              <[ get_lookup_group (reg_viewset r) "" := seg2 ]> {[ group := seg ]})
      else None
  | _ => None
  end.

(** ** The whole of [urlpatterns] *)

(** The format suffix of [format_suffix_patterns], [[a-z0-9]+]. *)
Definition is_format_char (c : ascii) : bool :=
  let n := N_of_ascii c in
  ((97 <=? n) && (n <=? 122) || (48 <=? n) && (n <=? 57))%N.

Fixpoint all_format_chars (s : string) : bool :=
  match s with
  | EmptyString => true
  | String c s' => is_format_char c && all_format_chars s'
  end.

Definition is_format (s : string) : bool :=
  negb (String.eqb s "") && all_format_chars s.

(** A segment [stem.rest], split at its first dot. *)
Fixpoint split_dot (s : string) : option (string * string) :=
  match s with
  | EmptyString => None
  | String c s' =>
      if Ascii.eqb c "."%char then Some (EmptyString, s')
      else match split_dot s' with
           | Some (stem, rest) => Some (String c stem, rest)
           | None => None
           end
  end.

(** The last segment of a format-suffixed pattern,
    [<stem>\.(?P<format>[a-z0-9]+)]. *)
Definition format_suffix (seg : string) : option (string * string) :=
  match split_dot seg with
  | Some (stem, fmt) => if is_format fmt then Some (stem, fmt) else None
  | None => None
  end.

(** What a pattern of [urlpatterns] leads to: an action of a view set, the
    API root view that [DefaultRouter] adds, or a page of
    [rest_framework.urls]. *)
Inductive url_target :=
| ViewSetRoute (c : viewset) (action : option string) (kwargs : gmap string string)
| ApiRoot (kwargs : gmap string string)
| AuthPage (name : string).

(** [urlpatterns] (urls.py 22-26).  [router] is a [DefaultRouter]: beside
    the patterns of [resolve] it has the API root and, for each of its
    patterns and for the root, a copy whose last segment carries a format
    suffix, passed on as the keyword ['format'].  [listings_router] is a
    [NestedSimpleRouter] and has neither.  The third entry mounts the
    login and logout pages of [rest_framework.urls] behind the prefix
    ['api-auth'], which has no slash of its own.  The patterns are tried
    in the order of the list; no path matches two of them. *)
Definition urlpatterns (m : http_method) (path : list string)
  : option url_target :=
  match resolve m path with
  | Some (c, action, kwargs) => Some (ViewSetRoute c action kwargs)
  | None =>
      match path with
      | [] => Some (ApiRoot ∅)
      | [seg] =>
          match format_suffix seg with
          | Some (stem, fmt) =>
              if String.eqb stem "" then Some (ApiRoot {[ "format" := fmt ]})
              else
                match find_registration router stem with
                | Some r =>
                    Some (ViewSetRoute (reg_viewset r)
                            (action_of list_mapping m) {[ "format" := fmt ]})
                | None => None
                end
          | None =>
              if String.eqb seg "api-authlogin" then Some (AuthPage "login")
              else if String.eqb seg "api-authlogout" then Some (AuthPage "logout")
              else None
          end
      | [prefix; seg] =>
          match format_suffix seg, find_registration router prefix with
          | Some (stem, fmt), Some r =>
              if valid_segment stem then
                Some (ViewSetRoute (reg_viewset r)
                        (action_of detail_mapping m)
                        (<[ "format" := fmt ]>
                           {[ get_lookup_group (reg_viewset r) "" := stem ]}))
              else None
          | _, _ => None
          end
      | [prefix; seg; third] =>
          match format_suffix third, find_registration router prefix with
          | Some (name, fmt), Some r =>
              match find (fun e => String.eqb (fst e) name)
                         (extra_detail_actions (reg_viewset r)) with
              | Some (_, mapping) =>
                  if valid_segment seg then
                    Some (ViewSetRoute (reg_viewset r) (action_of mapping m)
                            (<[ "format" := fmt ]>
                               {[ get_lookup_group (reg_viewset r) "" := seg ]}))
                  else None
              | None => None
              end
          | _, _ => None
          end
      | _ => None
      end
  end.

(** One request to a route of [resolve], from URL resolution to the
    response.  [None]: the path is none of those routes; it may still be
    routed by [urlpatterns], to the API root, to a format-suffixed copy of a
    route (which adds content negotiation on the suffix) or to the login
    pages, none of which is followed further here. *)
Definition serve (request : Request) (path : list string) (s : Store)
  : option (Store * outcome) :=
  match resolve (req_method request) path with
  | None => None
  | Some (c, action, kwargs) =>
      Some (dispatch {| v_class := c; v_dict := ∅; v_action := action;
                        v_kwargs := kwargs; v_request := request |} s)
  end.

End Api.

(** The view instance the router's [as_view] closure builds. *)
Definition mk_view (c : viewset) (action : option string)
    (kwargs : gmap string string) (request : Request) : View :=
  {| v_class := c; v_dict := ∅; v_action := action;
     v_kwargs := kwargs; v_request := request |}.

(** * A concrete deployment

    One store and one choice for each parameter, on which the statements
    above are exercised: decimal numerals for [int], the stock permission
    default, a validation that accepts every body as it is, and
    [owner] / [guest] / [author] as the owner of a listing / booking /
    review. *)

Definition sample_int (s : string) : option Z :=
  Z.of_int <$> NilEmpty.int_of_string s.

Definition sample_owner_field (o : Obj) : option Z :=
  match o with
  | OUser u => Some u
  | OListing l => Some (listing_owner l)
  | OBooking b => Some (booking_guest b)
  | OReview r => Some (review_author r)
  end.

Definition sample_validation (c : serializer_class) (body : gmap string fval)
  : option (gmap string fval) := Some body.

Definition villa : Listing :=
  {| listing_pk := 1; listing_slug := "villa-1"; listing_owner := 10;
     listing_fields := ∅ |}.
Definition hut : Listing :=
  {| listing_pk := 2; listing_slug := "hut"; listing_owner := 20;
     listing_fields := ∅ |}.
Definition booking1 : Booking :=
  {| booking_pk := 1; booking_guest := 20; booking_status := CONFIRMED;
     booking_listing := 1; booking_fields := ∅ |}.
Definition booking2 : Booking :=
  {| booking_pk := 2; booking_guest := 20; booking_status := PENDING;
     booking_listing := 1; booking_fields := ∅ |}.
Definition booking3 : Booking :=
  {| booking_pk := 3; booking_guest := 30; booking_status := CONFIRMED;
     booking_listing := 1; booking_fields := ∅ |}.
Definition review1 : Review :=
  {| review_pk := 1; review_author := 20; review_listing := 1;
     review_fields := ∅ |}.

Definition sample_store : Store :=
  {| users := [10; 20; 30]; listings := [villa];
     bookings := [booking1; booking2; booking3]; reviews := [review1] |}.

Definition sample_request (m : http_method) (u : PyUser) : Request :=
  {| req_method := m; req_user := u; req_data := ∅;
     req_authenticate_header := false |}.

(** A create request whose body names somebody else as owner. *)
Definition hut_request : Request :=
  {| req_method := POST; req_user := AuthUser 20;
     req_data := {[ "owner" := FUser (AuthUser 10); "slug" := FStr "hut" ]};
     req_authenticate_header := false |}.

Definition sample_serve :=
  serve [AllowAny] sample_owner_field sample_int sample_validation.

(** The view a cancel request for booking [seg] by guest 20 runs on. *)
Definition cancel_view (seg : string) : View :=
  mk_view BookingViewset (Some "cancel") {[ "pk" := seg ]}
    (sample_request POST (AuthUser 20)).

(** The sample store after guest 20 created the listing [hut]. *)
Definition store_with_hut : Store := with_listings sample_store [villa; hut].

(** A booking request for listing 1 whose body names somebody else as
    guest, the booking it creates for its sender, and the store after. *)
Definition booking_request : Request :=
  {| req_method := POST; req_user := AuthUser 20;
     req_data := {[ "guest" := FUser (AuthUser 30); "listing" := FRef 1 ]};
     req_authenticate_header := false |}.
Definition booking4 : Booking :=
  {| booking_pk := 4; booking_guest := 20; booking_status := PENDING;
     booking_listing := 1; booking_fields := ∅ |}.
Definition store_with_booking4 : Store :=
  with_bookings sample_store [booking1; booking2; booking3; booking4].

(** What a caller of [perform_create] can observe of its result: the store
    and the instance the serializer ends up with (or the exception). *)
Definition created (r : Store * result Serializer)
  : Store * result (option Obj) :=
  (fst r,
   match snd r with
   | Ok serializer => Ok (ser_instance serializer)
   | Raise e => Raise e
   end).

(** A review view whose keyword arguments hold [listing_slug], as the
    docstring of [ReviewViewSet.get_queryset] expects them. *)
Definition slug_view (slug : string) : View :=
  mk_view ReviewViewSet (Some "list") {[ "listing_slug" := slug ]}
    (sample_request GET AnonymousUser).

(** * Properties *)

Section Properties.

Variable DEFAULT_PERMISSION_CLASSES : list permission_class.
Variable owner_field : Obj -> option Z.
Variable py_int : string -> option Z.
Variable run_validation :
  serializer_class -> gmap string fval -> option (gmap string fval).

Abbreviation get_queryset' := (get_queryset DEFAULT_PERMISSION_CLASSES).
Abbreviation get_object' :=
  (get_object DEFAULT_PERMISSION_CLASSES owner_field py_int).
Abbreviation cancel' :=
  (BookingViewset_cancel DEFAULT_PERMISSION_CLASSES owner_field py_int).
Abbreviation serve' :=
  (serve DEFAULT_PERMISSION_CLASSES owner_field py_int run_validation).
Abbreviation handler' :=
  (handler DEFAULT_PERMISSION_CLASSES owner_field py_int run_validation).
Abbreviation dispatch' :=
  (dispatch DEFAULT_PERMISSION_CLASSES owner_field py_int run_validation).

(** Unfolds one step of the handler monad. *)
Ltac monad_step :=
  unfold bind, lift, ret, raise in *; simpl in *.

(** *** Query sets read the store and leave it alone *)

Lemma get_queryset_store self s s1 r :
  get_queryset' self s = (s1, r) -> s1 = s.
Proof.
  unfold get_queryset, BookingViewset_get_queryset, ReviewViewSet_get_queryset,
    GenericAPIView_get_queryset.
  intros H. monad_step.
  destruct (v_class self).
  - destruct (getattr _ self "queryset") as [[| | |[]|]|]; congruence.
  - destruct (getattr _ self "queryset") as [[| | |[]|]|]; congruence.
  - destruct (req_user (v_request self)); congruence.
  - destruct (kwargs_item self "listing_slug"); congruence.
Qed.

(** Whatever class the view has, a booking in its query set is a row of the
    booking table. *)
Lemma get_queryset_bookings self s s1 q b :
  get_queryset' self s = (s1, Ok q) -> OBooking b ∈ q -> b ∈ bookings s.
Proof.
  unfold get_queryset, BookingViewset_get_queryset, ReviewViewSet_get_queryset,
    GenericAPIView_get_queryset.
  intros H Hin. monad_step.
  assert (Hfmap : forall (bs : list Booking), OBooking b ∈ OBooking <$> bs -> b ∈ bs).
  { intros bs Hb. apply list_elem_of_fmap in Hb as (b' & Heq & Hb').
    by injection Heq as ->. }
  assert (Hother : forall {A} (f : A -> Obj) (xs : list A),
             (forall x, f x <> OBooking b) -> OBooking b ∈ f <$> xs -> False).
  { intros A f xs Hne Hb. apply list_elem_of_fmap in Hb as (x & Heq & _).
    by eapply Hne. }
  destruct (v_class self).
  - destruct (getattr _ self "queryset") as [[| | |[]|]|]; simplify_eq;
      solve [ by apply Hfmap | exfalso; eapply Hother; [|eassumption]; done ].
  - destruct (getattr _ self "queryset") as [[| | |[]|]|]; simplify_eq;
      solve [ by apply Hfmap | exfalso; eapply Hother; [|eassumption]; done ].
  - destruct (req_user (v_request self)); simplify_eq.
    apply Hfmap in Hin. by apply list_elem_of_filter in Hin as [_ ?].
  - destruct (kwargs_item self "listing_slug"); simplify_eq.
    exfalso; eapply Hother; [|eassumption]; done.
Qed.

(** *** [filter_by] keeps exactly the matching rows, in order *)

Lemma filter_by_elem field value q l o :
  filter_by py_int field value q = Ok l ->
  o ∈ l <-> o ∈ q /\ field_matches py_int field value o = Ok true.
Proof.
  revert l. induction q as [|x q IH]; intros l H; simpl in H.
  - simplify_eq. split; [by intros ?%elem_of_nil | by intros [?%elem_of_nil _]].
  - destruct (field_matches py_int field value x) as [keep|] eqn:Hx; [|done].
    destruct (filter_by py_int field value q) as [rest|] eqn:Hq; [|done].
    specialize (IH rest eq_refl). simplify_eq.
    destruct keep; rewrite ?elem_of_cons, IH; split.
    + intros [->|[? ?]]; auto.
    + intros [[->|?] ?]; auto.
    + intros [? ?]; auto.
    + intros [[->|?] ?]; [congruence | auto].
Qed.

Lemma get_object_or_404_elem q field value o :
  get_object_or_404 py_int q field value = Ok o ->
  o ∈ q /\ field_matches py_int field value o = Ok true.
Proof.
  unfold get_object_or_404. intros H.
  destruct (filter_by py_int field value q) as [l|e] eqn:Hl.
  - destruct l as [|x [|]]; simplify_eq.
    apply (filter_by_elem _ _ _ _ o) in Hl. apply Hl. by left.
  - destruct e; done.
Qed.

(** *** [get_object] *)

Lemma get_object_store self s s1 r :
  get_object' self s = (s1, r) -> s1 = s.
Proof.
  unfold get_object. intros H. monad_step.
  destruct (get_queryset' self s) as [s2 [q|e]] eqn:Hq;
    apply get_queryset_store in Hq as ->; [|congruence].
  repeat match type of H with
         | context [match ?x with _ => _ end] => destruct x; simplify_eq
         end; done.
Qed.

Lemma get_object_inv self s s1 o :
  get_object' self s = (s1, Ok o) ->
  s1 = s /\
  exists q field value,
    get_queryset' self s = (s, Ok q) /\
    lookup_field DEFAULT_PERMISSION_CLASSES self = Ok field /\
    o ∈ q /\ field_matches py_int field value o = Ok true /\
    (exists k, v_kwargs self !! k = Some value).
Proof.
  intros H. split; [by eapply get_object_store|].
  unfold get_object in H. monad_step.
  destruct (get_queryset' self s) as [s2 [q|e]] eqn:Hq; [|done].
  pose proof (get_queryset_store _ _ _ _ Hq) as ->.
  destruct (lookup_url_kwarg _ self) as [k|]; [|done].
  destruct (lookup_field _ self) as [f|]; [|done].
  destruct (v_kwargs self !! k) as [v|] eqn:Hk; [|done].
  destruct (get_object_or_404 py_int q f v) as [o'|] eqn:Ho; [|done].
  destruct (check_object_permissions _ _ self o') as [? [[]|]];
    simpl in H; simplify_eq.
  apply get_object_or_404_elem in Ho as [? ?].
  exists q, f, v. eauto 10.
Qed.

Lemma get_object_booking self s s1 b :
  get_object' self s = (s1, Ok (OBooking b)) -> s1 = s /\ b ∈ bookings s.
Proof.
  intros H. apply get_object_inv in H as (-> & q & f & v & Hq & _ & Hin & _).
  split; [done|]. by eapply get_queryset_bookings.
Qed.

(** *** Saving an unmodified booking *)

Lemma save_booking_rows b s :
  exists s', save (OBooking b) s = (s', Ok tt) /\
    (b ∈ bookings s -> b ∈ bookings s') /\
    (forall b', b' ∈ bookings s' -> booking_pk b' = booking_pk b -> b' = b) /\
    (forall b', b' ∈ bookings s' -> booking_pk b' <> booking_pk b -> b' ∈ bookings s).
Proof.
  eexists; split; [reflexivity|]. simpl. repeat split.
  - intros Hin. apply list_elem_of_fmap. exists b. by rewrite Z.eqb_refl.
  - intros b' (r & -> & _)%list_elem_of_fmap Hpk.
    destruct (booking_pk r =? booking_pk b) eqn:E; [done|].
    apply Z.eqb_neq in E. congruence.
  - intros b' (r & -> & Hr)%list_elem_of_fmap Hpk.
    destruct (booking_pk r =? booking_pk b) eqn:E; [congruence|done].
Qed.

(** The two status names [cancel] reads. *)
Lemma status_HTTP_200_OK : status_attr "HTTP_200_OK" = Ok 200.
Proof. vm_compute. reflexivity. Qed.

Lemma status_HTT_400_BAD_REQUEST :
  status_attr "HTT_400_BAD_REQUEST"
  = Raise (AttributeError "rest_framework.status" "HTT_400_BAD_REQUEST").
Proof. vm_compute. reflexivity. Qed.

(** C1 (the code departs from the specification).  When [get_object] hands [cancel]
    a CONFIRMED booking, [cancel] answers 200 with
    [{'status': 'Booking cancelled'}], yet the row it saved is the booking
    as it was read: after the call the booking is still in the table, and
    every row with its primary key is that same CONFIRMED booking, so no
    CANCELLED status has been persisted. *)
Theorem cancel_confirmed_keeps_status self s s1 b :
  get_object DEFAULT_PERMISSION_CLASSES owner_field py_int self s
  = (s1, Ok (OBooking b)) ->
  booking_status b = CONFIRMED ->
  exists s',
    BookingViewset_cancel DEFAULT_PERMISSION_CLASSES owner_field py_int self s
    = (s', Ok {| resp_data := PDict [("status", "Booking cancelled")];
                 resp_status := 200 |}) /\
    b ∈ bookings s' /\
    (forall b', b' ∈ bookings s' -> booking_pk b' = booking_pk b ->
                booking_status b' = CONFIRMED /\ booking_status b' <> CANCELLED).
Proof.
  intros Hget Hst.
  destruct (get_object_booking _ _ _ _ Hget) as [-> Hin].
  destruct (save_booking_rows b s) as (s' & Hsave & Hkeep & Hsame & _).
  exists s'. unfold BookingViewset_cancel, bind. rewrite Hget.
  rewrite bool_decide_eq_true_2 by done.
  rewrite Hsave. unfold lift. rewrite status_HTTP_200_OK. unfold ret.
  split; [reflexivity|]. split; [auto|].
  intros b' Hb' Hpk. rewrite (Hsame b' Hb' Hpk). split; congruence.
Qed.

(** C2 (the code departs from the specification).  When [get_object] hands [cancel]
    a booking that is not CONFIRMED, the store is left as it was, but no
    400 response is built: reading [status.HTT_400_BAD_REQUEST] raises
    [AttributeError], which no exception handler turns into a response. *)
Theorem cancel_unconfirmed_raises self s s1 b :
  get_object DEFAULT_PERMISSION_CLASSES owner_field py_int self s
  = (s1, Ok (OBooking b)) ->
  booking_status b <> CONFIRMED ->
  BookingViewset_cancel DEFAULT_PERMISSION_CLASSES owner_field py_int self s
  = (s, Raise (AttributeError "rest_framework.status" "HTT_400_BAD_REQUEST")) /\
  handle_exception (v_request self)
    (AttributeError "rest_framework.status" "HTT_400_BAD_REQUEST")
  = ServerError (AttributeError "rest_framework.status" "HTT_400_BAD_REQUEST").
Proof.
  intros Hget Hst.
  destruct (get_object_booking _ _ _ _ Hget) as [-> _].
  split; [|reflexivity].
  unfold BookingViewset_cancel, bind. rewrite Hget.
  rewrite bool_decide_eq_false_2 by done.
  unfold lift. by rewrite status_HTT_400_BAD_REQUEST.
Qed.

(** *** Looking an instance up by primary key *)

Lemma field_matches_pk value o :
  field_matches py_int "pk" value o
  = match py_int value with
    | Some n => Ok (obj_pk o =? n)
    | None => Raise ValueError
    end.
Proof. unfold field_matches. by rewrite bool_decide_eq_true_2. Qed.

Lemma filter_by_pk_number value n q :
  py_int value = Some n ->
  filter_by py_int "pk" value q = Ok (filter (fun o => obj_pk o = n) q).
Proof.
  intros Hn. induction q as [|x q IH]; [done|].
  simpl. rewrite field_matches_pk, Hn, IH.
  destruct (obj_pk x =? n) eqn:E.
  - apply Z.eqb_eq in E. by rewrite filter_cons_True.
  - apply Z.eqb_neq in E. by rewrite filter_cons_False.
Qed.

Lemma filter_by_pk_not_a_number value q :
  py_int value = None ->
  filter_by py_int "pk" value q
  = match q with [] => Ok [] | _ => Raise ValueError end.
Proof.
  intros Hn. destruct q as [|x q]; [done|].
  simpl. by rewrite field_matches_pk, Hn.
Qed.

(** No row of the query set carries the requested key: not found. *)
Lemma get_object_or_404_absent q value :
  (forall o, o ∈ q -> py_int value <> Some (obj_pk o)) ->
  get_object_or_404 py_int q "pk" value = Raise Http404.
Proof.
  intros Habs. unfold get_object_or_404.
  destruct (py_int value) as [n|] eqn:Hn.
  - rewrite (filter_by_pk_number _ n) by done.
    destruct (filter (fun o => obj_pk o = n) q) as [|x l] eqn:Hf; [done|].
    assert (x ∈ filter (fun o => obj_pk o = n) q) as [Hx Hin]%list_elem_of_filter
      by (rewrite Hf; left).
    exfalso. eapply Habs; [exact Hin|]. by rewrite Hx.
  - rewrite filter_by_pk_not_a_number by done. by destruct q.
Qed.

(** *** The booking view set *)

Lemma BookingViewset_queryset self P s :
  v_class self = BookingViewset ->
  req_user (v_request self) = AuthUser P ->
  get_queryset' self s
  = (s, Ok (OBooking <$> filter (fun b => booking_guest b = P) (bookings s))).
Proof.
  intros Hc Hu. unfold get_queryset, BookingViewset_get_queryset.
  by rewrite Hc, Hu.
Qed.

Lemma BookingViewset_lookup action kwargs request :
  lookup_field DEFAULT_PERMISSION_CLASSES
    (mk_view BookingViewset action kwargs request) = Ok "pk" /\
  lookup_url_kwarg DEFAULT_PERMISSION_CLASSES
    (mk_view BookingViewset action kwargs request) = Ok "pk".
Proof. split; vm_compute; reflexivity. Qed.

Lemma BookingViewset_check_permissions action kwargs request P :
  req_user request = AuthUser P ->
  check_permissions DEFAULT_PERMISSION_CLASSES
    (mk_view BookingViewset action kwargs request)
  = (mk_view BookingViewset action kwargs request, Ok tt).
Proof.
  intros Hu. unfold check_permissions, get_permissions. simpl.
  replace (APIView_get_permissions DEFAULT_PERMISSION_CLASSES
             (mk_view BookingViewset action kwargs request))
    with (Ok (A := list permission_class) [IsAuthenticated; IsOwnerOrReadOnly])
    by (vm_compute; reflexivity).
  simpl. by rewrite Hu.
Qed.

(** Every object [get_object] returns on the booking view set is a booking
    of the requester. *)
Lemma BookingViewset_get_object_own self P s s1 o :
  v_class self = BookingViewset ->
  req_user (v_request self) = AuthUser P ->
  get_object' self s = (s1, Ok o) ->
  exists b, o = OBooking b /\ b ∈ bookings s /\ booking_guest b = P.
Proof.
  intros Hc Hu (-> & q & f & v & Hq & _ & Hin & _)%get_object_inv.
  rewrite (BookingViewset_queryset _ P) in Hq by done. simplify_eq.
  apply list_elem_of_fmap in Hin as (b & -> & Hb).
  apply list_elem_of_filter in Hb as [? ?]. eauto.
Qed.

(** A key that designates no booking of the requester: [Http404]. *)
Lemma BookingViewset_get_object_foreign action seg request P s :
  req_user request = AuthUser P ->
  (forall b, b ∈ bookings s -> py_int seg = Some (booking_pk b) ->
             booking_guest b <> P) ->
  get_object' (mk_view BookingViewset action {[ "pk" := seg ]} request) s
  = (s, Raise Http404).
Proof.
  intros Hu Hforeign. unfold get_object, bind.
  rewrite (BookingViewset_queryset _ P) by done.
  destruct (BookingViewset_lookup action {[ "pk" := seg ]} request) as [-> ->].
  unfold lift. simpl v_kwargs. rewrite lookup_singleton_eq.
  rewrite get_object_or_404_absent; [done|].
  intros o (b & -> & Hb)%list_elem_of_fmap Hpk.
  apply list_elem_of_filter in Hb as [Hg Hb]. by eapply Hforeign.
Qed.

Lemma resolve_bookings_list m :
  resolve DEFAULT_PERMISSION_CLASSES m ["bookings"]
  = Some (BookingViewset, action_of list_mapping m, ∅).
Proof. reflexivity. Qed.

Lemma resolve_bookings_detail m seg :
  valid_segment seg = true ->
  resolve DEFAULT_PERMISSION_CLASSES m ["bookings"; seg]
  = Some (BookingViewset, action_of detail_mapping m, {[ "pk" := seg ]}).
Proof. intros Hv. unfold resolve. rewrite Hv. vm_compute. reflexivity. Qed.

Lemma resolve_bookings_cancel m seg :
  valid_segment seg = true ->
  resolve DEFAULT_PERMISSION_CLASSES m ["bookings"; seg; "cancel"]
  = Some (BookingViewset, action_of [(POST, "cancel")] m, {[ "pk" := seg ]}).
Proof. intros Hv. unfold resolve. rewrite Hv. vm_compute. reflexivity. Qed.

Lemma BookingViewset_serializer action kwargs request :
  get_serializer_class DEFAULT_PERMISSION_CLASSES
    (mk_view BookingViewset action kwargs request) = Ok BookingSerializer.
Proof. vm_compute. reflexivity. Qed.

(** Dispatch of a request whose handler starts with a failing
    [get_object]. *)
Lemma dispatch_booking_not_found action seg request P s :
  req_user request = AuthUser P ->
  action ∈ [Some "retrieve"; Some "update"; Some "partial_update";
            Some "destroy"; Some "cancel"] ->
  (forall b, b ∈ bookings s -> py_int seg = Some (booking_pk b) ->
             booking_guest b <> P) ->
  dispatch' (mk_view BookingViewset action {[ "pk" := seg ]} request) s
  = (s, error_response 404).
Proof.
  intros Hu Ha Hforeign. unfold dispatch.
  rewrite (BookingViewset_check_permissions _ _ _ P) by done.
  pose proof (BookingViewset_get_object_foreign action seg request P s Hu Hforeign)
    as Hget.
  repeat (apply elem_of_cons in Ha as [->|Ha]);
    [ | | | | | by apply elem_of_nil in Ha ];
    unfold handler; simpl;
    unfold retrieve, update, destroy, BookingViewset_cancel, bind;
    rewrite Hget; reflexivity.
Qed.

(** C3.  For an authenticated principal P the booking controller works on
    P's bookings only: the list operation answers with exactly the
    bookings whose guest is P; every object that any operation obtains
    through [get_object] is a booking of P; and retrieve, update, partial
    update, delete and cancel addressed to a key that designates no
    booking of P (another principal's booking in particular) answer 404,
    not 403, and leave the store as it was. *)
Theorem bookings_scoped_to_requester request P s :
  req_user request = AuthUser P ->
  (req_method request = GET ->
   serve DEFAULT_PERMISSION_CLASSES owner_field py_int run_validation
     request ["bookings"] s
   = Some (s, Responded
                {| resp_data :=
                     PMany BookingSerializer
                       (OBooking <$>
                          filter (fun b => booking_guest b = P) (bookings s));
                   resp_status := 200 |})) /\
  (forall action kwargs s1 o,
      get_object DEFAULT_PERMISSION_CLASSES owner_field py_int
        (mk_view BookingViewset action kwargs request) s
      = (s1, Ok o) ->
      exists b, o = OBooking b /\ b ∈ bookings s /\ booking_guest b = P) /\
  (forall seg,
      valid_segment seg = true ->
      (forall b, b ∈ bookings s -> py_int seg = Some (booking_pk b) ->
                 booking_guest b <> P) ->
      (req_method request ∈ [GET; HEAD; PUT; PATCH; DELETE] ->
       serve DEFAULT_PERMISSION_CLASSES owner_field py_int run_validation
         request ["bookings"; seg] s
       = Some (s, error_response 404)) /\
      (req_method request = POST ->
       serve DEFAULT_PERMISSION_CLASSES owner_field py_int run_validation
         request ["bookings"; seg; "cancel"] s
       = Some (s, error_response 404))).
Proof.
  intros Hu. split; [|split].
  - intros Hm. unfold serve. rewrite resolve_bookings_list, Hm. f_equal.
    fold (mk_view BookingViewset (action_of list_mapping GET) ∅ request).
    unfold dispatch.
    rewrite (BookingViewset_check_permissions _ _ _ P) by done.
    unfold handler; simpl. unfold list_action, bind.
    rewrite (BookingViewset_queryset _ P) by done.
    unfold lift. by rewrite BookingViewset_serializer.
  - intros action kwargs s1 o Hget.
    by eapply BookingViewset_get_object_own in Hget.
  - intros seg Hv Hforeign. split; intros Hm; unfold serve.
    + rewrite resolve_bookings_detail by done. f_equal.
      apply (dispatch_booking_not_found _ _ _ P); [done| |done].
      repeat (apply elem_of_cons in Hm as [->|Hm]);
        [ | | | | | by apply elem_of_nil in Hm ];
        vm_compute; set_solver.
    + rewrite resolve_bookings_cancel by done. f_equal.
      apply (dispatch_booking_not_found _ _ _ P); [done| |done].
      rewrite Hm. vm_compute. set_solver.
Qed.

(** *** Creation *)

Lemma kwargs_override (k : string) (x : fval) (vd : gmap string fval) :
  ({[ k := x ]} ∪ vd) !! k = Some x.
Proof. apply lookup_union_Some_l, lookup_singleton_eq. Qed.

(** [ListingViewset.perform_create]: a successful call appends one listing,
    owned by the requester, whatever the validated data said. *)
Lemma ListingViewset_perform_create_inv self ser s s' ser' :
  ser_instance ser = None ->
  Meta_model (ser_class ser) = ListingModel ->
  ListingViewset_perform_create self ser s = (s', Ok ser') ->
  exists u l,
    req_user (v_request self) = AuthUser u /\
    listings s' = (listings s ++ [l])%list /\
    listing_owner l = u /\
    ser_instance ser' = Some (OListing l) /\
    ser_class ser' = ser_class ser.
Proof.
  intros Hnew Hmodel H.
  unfold ListingViewset_perform_create, Serializer_save, bind in H.
  rewrite Hnew, Hmodel in H. unfold objects_create in H.
  rewrite kwargs_override in H.
  destruct (req_user (v_request self)) as [|u] eqn:Hu; simpl in H; [done|].
  destruct (existsb _ (listings s)); [done|].
  unfold ret in H. simplify_eq. eexists u, _. simpl. eauto 10.
Qed.

(** [BookingViewset.perform_create]: likewise for the guest. *)
Lemma BookingViewset_perform_create_inv self ser s s' ser' :
  ser_instance ser = None ->
  Meta_model (ser_class ser) = BookingModel ->
  BookingViewset_perform_create self ser s = (s', Ok ser') ->
  exists u b,
    req_user (v_request self) = AuthUser u /\
    bookings s' = (bookings s ++ [b])%list /\
    booking_guest b = u /\
    ser_instance ser' = Some (OBooking b) /\
    ser_class ser' = ser_class ser.
Proof.
  intros Hnew Hmodel H.
  unfold BookingViewset_perform_create, Serializer_save, bind in H.
  rewrite Hnew, Hmodel in H. unfold objects_create in H.
  rewrite kwargs_override in H.
  destruct (req_user (v_request self)) as [|u] eqn:Hu; simpl in H; [done|].
  destruct (ref_value _); [|done].
  unfold ret in H. simplify_eq. eexists u, _. simpl. eauto 10.
Qed.

(** [get_permissions] may add an instance attribute, nothing else. *)
Lemma get_permissions_view self self' r :
  get_permissions DEFAULT_PERMISSION_CLASSES self = (self', r) ->
  v_class self' = v_class self /\ v_request self' = v_request self /\
  v_action self' = v_action self /\ v_kwargs self' = v_kwargs self.
Proof.
  unfold get_permissions, ListingViewset_get_permissions.
  destruct (v_class self) eqn:E; try case_bool_decide; intros [= <- _];
    simpl; by rewrite ?E.
Qed.

Lemma check_permissions_view self self' r :
  check_permissions DEFAULT_PERMISSION_CLASSES self = (self', r) ->
  v_class self' = v_class self /\ v_request self' = v_request self /\
  v_action self' = v_action self /\ v_kwargs self' = v_kwargs self.
Proof.
  unfold check_permissions. intros H.
  destruct (get_permissions _ self) as [self1 [ps|e]] eqn:Hg;
    apply get_permissions_view in Hg; by simplify_eq.
Qed.

(** Only the listing view set touches the instance. *)
Lemma check_permissions_same self self' r :
  v_class self <> ListingViewset ->
  check_permissions DEFAULT_PERMISSION_CLASSES self = (self', r) ->
  self' = self.
Proof.
  unfold check_permissions, get_permissions. intros Hc H.
  destruct (v_class self); [|done| |];
    destruct (APIView_get_permissions _ self); by simplify_eq.
Qed.

(** A 201 response can only come from the handler. *)
Lemma dispatch_201 self s s' r :
  dispatch' self s = (s', Responded r) ->
  resp_status r = 201 ->
  exists self',
    check_permissions DEFAULT_PERMISSION_CLASSES self = (self', Ok tt) /\
    handler' self' s = (s', Ok r).
Proof.
  unfold dispatch. intros H H201.
  destruct (check_permissions _ self) as [self' [[]|e]] eqn:Hc.
  - exists self'. split; [done|].
    destruct (is_metadata (v_action self')); [done|].
    destruct (handler' self' s) as [s2 [r2|e]]; [by simplify_eq|].
    destruct e; simpl in H; unfold error_response in H; simplify_eq;
      simpl in H201; try done; by destruct (req_authenticate_header _).
  - destruct e; simpl in H; unfold error_response in H; simplify_eq;
      simpl in H201; try done; by destruct (req_authenticate_header _).
Qed.

Lemma create_inv self s s' r :
  create DEFAULT_PERMISSION_CLASSES run_validation self s = (s', Ok r) ->
  exists c vd ser',
    get_serializer_class DEFAULT_PERMISSION_CLASSES self = Ok c /\
    perform_create self
      {| ser_class := c; ser_instance := None; ser_validated_data := vd |} s
    = (s', Ok ser') /\
    r = {| resp_data := rendered ser'; resp_status := 201 |}.
Proof.
  unfold create, bind, lift, ret. intros H.
  destruct (get_serializer_class _ self) as [c|]; [|done].
  destruct (validated _ c _) as [vd|]; [|done].
  destruct (perform_create self _ s) as [s2 [ser'|]] eqn:Hp; [|done].
  simplify_eq. eauto 10.
Qed.

(** C4.  A POST to the listing (booking) collection that is answered 201
    has appended exactly one listing (booking) whose owner (guest) is the
    authenticated requester, whatever owner or guest the request body and
    the validated data carried. *)
Theorem create_binds_requester request s s' r :
  req_method request = POST ->
  resp_status r = 201 ->
  (serve DEFAULT_PERMISSION_CLASSES owner_field py_int run_validation
     request ["listings"] s
   = Some (s', Responded r) ->
   exists u l,
     req_user request = AuthUser u /\
     listings s' = (listings s ++ [l])%list /\
     listing_owner l = u /\
     resp_data r = POne ListingSerializer (OListing l)) /\
  (serve DEFAULT_PERMISSION_CLASSES owner_field py_int run_validation
     request ["bookings"] s
   = Some (s', Responded r) ->
   exists u b,
     req_user request = AuthUser u /\
     bookings s' = (bookings s ++ [b])%list /\
     booking_guest b = u /\
     resp_data r = POne BookingSerializer (OBooking b)).
Proof.
  intros Hm H201. split; intros H; unfold serve in H.
  - change (resolve _ (req_method request) ["listings"])
      with (Some (ListingViewset, action_of list_mapping (req_method request),
                  (∅ : gmap string string))) in H.
    rewrite Hm in H. simpl action_of in H. injection H as H.
    apply dispatch_201 in H as (self' & Hc & Hh); [|done].
    apply check_permissions_view in Hc as (Hcl & Hrq & Hact & _). simpl in *.
    unfold handler in Hh. rewrite Hact in Hh. simpl in Hh.
    apply create_inv in Hh as (c & vd & ser' & Hs & Hp & ->).
    unfold get_serializer_class, ListingViewset_get_serializer_class in Hs.
    rewrite Hcl, Hact in Hs. rewrite bool_decide_eq_false_2 in Hs by done.
    injection Hs as <-. unfold perform_create in Hp. rewrite Hcl in Hp.
    apply ListingViewset_perform_create_inv in Hp
      as (u & l & Hu & Hl & Ho & Hi & Hk); [|done..].
    exists u, l. rewrite Hrq in Hu. unfold rendered. rewrite Hi, Hk. done.
  - rewrite resolve_bookings_list, Hm in H. simpl action_of in H.
    injection H as H.
    apply dispatch_201 in H as (self' & Hc & Hh); [|done].
    apply check_permissions_same in Hc as ->; [|done].
    unfold handler in Hh. simpl in Hh.
    apply create_inv in Hh as (c & vd & ser' & Hs & Hp & ->).
    change (get_serializer_class DEFAULT_PERMISSION_CLASSES
              (mk_view BookingViewset (Some "create") ∅ request) = Ok c) in Hs.
    rewrite BookingViewset_serializer in Hs. injection Hs as <-.
    unfold perform_create in Hp. simpl in Hp.
    apply BookingViewset_perform_create_inv in Hp
      as (u & b & Hu & Hb & Ho & Hi & Hk); [|done..].
    exists u, b. unfold rendered. rewrite Hi, Hk. done.
Qed.

(** *** Permissions in force on the listing and review view sets *)

(** The framework reads [permission_classes]; an assignment to
    [permissions_classes] does not change what it finds there. *)
Lemma ListingViewset_permissions_default self :
  v_class self = ListingViewset ->
  v_dict self !! "permission_classes" = None ->
  snd (get_permissions DEFAULT_PERMISSION_CLASSES self)
  = Ok DEFAULT_PERMISSION_CLASSES.
Proof.
  intros Hc Hd. unfold get_permissions, ListingViewset_get_permissions.
  rewrite Hc. simpl.
  unfold APIView_get_permissions, getattr, setattr.
  case_bool_decide; simpl; rewrite lookup_insert_ne by done;
    rewrite Hd, Hc; reflexivity.
Qed.

(** The review class binds [permission_class]; the framework finds the
    settings' default under [permission_classes]. *)
Lemma ReviewViewSet_permissions_default self :
  v_class self = ReviewViewSet ->
  v_dict self !! "permission_classes" = None ->
  get_permissions DEFAULT_PERMISSION_CLASSES self
  = (self, Ok DEFAULT_PERMISSION_CLASSES).
Proof.
  intros Hc Hd. unfold get_permissions. rewrite Hc.
  unfold APIView_get_permissions, getattr. rewrite Hd, Hc. reflexivity.
Qed.

Lemma resolve_listings_list m :
  resolve DEFAULT_PERMISSION_CLASSES m ["listings"]
  = Some (ListingViewset, action_of list_mapping m, ∅).
Proof. reflexivity. Qed.

(** Every action but the misspelt one gets the summary serializer. *)
Lemma ListingViewset_serializer_summary self :
  v_action self <> Some "retireve" ->
  ListingViewset_get_serializer_class self = ListingSerializer.
Proof.
  intros Ha. unfold ListingViewset_get_serializer_class.
  by rewrite bool_decide_eq_false_2.
Qed.

(** C5 (the code departs from the specification).  The permission lists that
    [ListingViewset.get_permissions] computes per action are stored under a
    name the framework never reads, so for the create action the classes in
    force are the settings' default.  With the framework's stock default
    ([AllowAny]) an unauthenticated POST to the listing collection passes
    the permission check and reaches the handler: it is answered 400 (body
    rejected by validation) or fails with [ValueError] (the anonymous user
    cannot be stored as owner), never 401 or 403. *)
Theorem listing_create_admits_anonymous request s :
  req_user request = AnonymousUser ->
  req_method request = POST ->
  snd (get_permissions DEFAULT_PERMISSION_CLASSES
         (mk_view ListingViewset (Some "create") ∅ request))
  = Ok DEFAULT_PERMISSION_CLASSES /\
  exists o,
    serve [AllowAny] owner_field py_int run_validation request ["listings"] s
    = Some (s, o) /\
    (o = error_response 400 \/ o = ServerError ValueError).
Proof.
  intros Hu Hm. split; [by apply ListingViewset_permissions_default|].
  unfold serve.
  replace (resolve [AllowAny] (req_method request) ["listings"])
    with (Some (ListingViewset, action_of list_mapping (req_method request),
                (∅ : gmap string string)))
    by reflexivity.
  rewrite Hm. simpl action_of. unfold dispatch.
  replace (check_permissions [AllowAny] _)
    with (setattr (mk_view ListingViewset (Some "create") ∅ request)
            "permissions_classes" (APerms [IsAuthenticated; IsOwnerOrReadOnly]),
          Ok (A := unit) tt)
    by (vm_compute; reflexivity).
  unfold handler. simpl. unfold create, bind, lift. simpl.
  rewrite !ListingViewset_serializer_summary by done.
  unfold validated. simpl.
  destruct (run_validation ListingSerializer (req_data request)) as [vd|].
  - exists (ServerError ValueError). split; [|by right]. f_equal.
    unfold perform_create, ListingViewset_perform_create, Serializer_save, bind.
    simpl. rewrite kwargs_override. by rewrite Hu.
  - exists (error_response 400). split; [done|by left].
Qed.

(** The action names the routers hand out; ['retireve'] is none of them. *)
Lemma action_of_routed mapping m a :
  mapping ∈ [list_mapping; detail_mapping; [(POST, "cancel")]] ->
  action_of mapping m = Some a ->
  a ∈ ["list"; "create"; "retrieve"; "update"; "partial_update"; "destroy";
       "metadata"; "cancel"].
Proof.
  intros Hmap Ha.
  repeat (apply elem_of_cons in Hmap as [->|Hmap]);
    [ | | | by apply elem_of_nil in Hmap ];
    destruct m; vm_compute in Ha; simplify_eq; set_solver.
Qed.

Lemma extra_detail_actions_mapping c name mapping :
  find (fun e => String.eqb (fst e) name) (extra_detail_actions c) = Some mapping ->
  snd mapping = [(POST, "cancel")].
Proof.
  destruct c; try done.
  cbn [extra_detail_actions find fst].
  destruct (String.eqb "cancel" name); [|done]. by intros [= <-].
Qed.

Lemma resolve_action m path c a kw :
  resolve DEFAULT_PERMISSION_CLASSES m path = Some (c, Some a, kw) ->
  a ∈ ["list"; "create"; "retrieve"; "update"; "partial_update"; "destroy";
       "metadata"; "cancel"].
Proof.
  unfold resolve. intros H.
  destruct path as [|p [|seg [|third [|seg2 [|]]]]]; try done.
  - apply bind_Some in H as (r & _ & [= _ Ha _]).
    by eapply (action_of_routed list_mapping m); [set_solver|].
  - apply bind_Some in H as (r & _ & H).
    destruct (valid_segment seg); [|done]. injection H as _ Ha _.
    by eapply (action_of_routed detail_mapping m); [set_solver|].
  - match type of H with
    | match ?first with Some _ => _ | None => _ end = _ =>
        destruct first as [found|] eqn:Hfirst
    end.
    + injection H as ->.
      apply bind_Some in Hfirst as (r & _ & Hfirst).
      apply bind_Some in Hfirst as (mapping & Hf & Hfirst).
      apply fmap_Some in Hf as (e & Hf & ->).
      apply extra_detail_actions_mapping in Hf.
      destruct (valid_segment seg); [|done].
      injection Hfirst as _ Ha _. rewrite Hf in Ha.
      by eapply (action_of_routed [(POST, "cancel")] m); [set_solver|].
    + destruct (_ && _); [|done].
      apply bind_Some in H as (group & _ & H).
      apply bind_Some in H as (r & _ & [= _ Ha _]).
      by eapply (action_of_routed list_mapping m); [set_solver|].
  - destruct (_ && _); [|done].
    apply bind_Some in H as (group & _ & H).
    apply bind_Some in H as (r & _ & [= _ Ha _]).
    by eapply (action_of_routed detail_mapping m); [set_solver|].
Qed.

(** No request the URL patterns route reaches the detail serializer. *)
Lemma routed_listing_serializer m path c a kw request :
  resolve DEFAULT_PERMISSION_CLASSES m path = Some (c, a, kw) ->
  ListingViewset_get_serializer_class (mk_view c a kw request)
  = ListingSerializer.
Proof.
  intros H. apply ListingViewset_serializer_summary. simpl.
  destruct a as [a|]; [|done]. intros [= ->].
  apply resolve_action in H.
  repeat (apply elem_of_cons in H as [?|H]); try done.
  by apply elem_of_nil in H.
Qed.

(** C6 (the code departs from the specification).  On the retrieve action the
    listing view set selects [ListingSerializer], the summary
    representation: the action name is compared with ['retireve'], which
    is not the name of the retrieve action. *)
Theorem listing_retrieve_selects_summary self :
  v_class self = ListingViewset ->
  v_action self = Some "retrieve" ->
  get_serializer_class DEFAULT_PERMISSION_CLASSES self = Ok ListingSerializer /\
  ListingViewset_get_serializer_class self <> ListingDetailSerializer.
Proof.
  intros Hc Ha. unfold get_serializer_class, ListingViewset_get_serializer_class.
  rewrite Hc, Ha. by rewrite bool_decide_eq_false_2.
Qed.

(** *** The nested review routes *)

Lemma resolve_reviews_list m seg :
  resolve DEFAULT_PERMISSION_CLASSES m ["listings"; seg; "reviews"]
  = if valid_segment seg
    then Some (ReviewViewSet, action_of list_mapping m, {[ "listing_pk" := seg ]})
    else None.
Proof.
  unfold resolve. destruct (valid_segment seg); vm_compute; reflexivity.
Qed.

Lemma resolve_reviews_detail m seg seg2 :
  resolve DEFAULT_PERMISSION_CLASSES m ["listings"; seg; "reviews"; seg2]
  = if valid_segment seg && valid_segment seg2
    then Some (ReviewViewSet, action_of detail_mapping m,
               <[ "pk" := seg2 ]> {[ "listing_pk" := seg ]})
    else None.
Proof.
  unfold resolve.
  destruct (valid_segment seg), (valid_segment seg2); vm_compute; reflexivity.
Qed.

(** What the review query set is when the URL does supply
    [listing_slug]: the reviews of the listings with that slug. *)
Lemma ReviewViewSet_get_queryset_slug self slug s :
  v_class self = ReviewViewSet ->
  v_kwargs self !! "listing_slug" = Some slug ->
  get_queryset' self s
  = (s, Ok (OReview <$>
              filter (fun r => listing_has_slug s (review_listing r) slug = true)
                     (reviews s))).
Proof.
  intros Hc Hk. unfold get_queryset, ReviewViewSet_get_queryset, bind, lift,
    kwargs_item.
  by rewrite Hc, Hk.
Qed.

(** C7 (the code departs from the specification).  A POST that the URL patterns
    route to the review collection of a listing reaches
    [ReviewViewSet.perform_create] with the keyword arguments of the nested
    route; the method reads the key ['listing<-slug'], which is not among
    them, so it raises [KeyError] and creates nothing. *)
Theorem review_create_raises_KeyError seg c a kw request serializer s :
  resolve DEFAULT_PERMISSION_CLASSES POST ["listings"; seg; "reviews"]
  = Some (c, a, kw) ->
  c = ReviewViewSet /\ a = Some "create" /\
  perform_create (mk_view c a kw request) serializer s
  = (s, Raise (KeyError "listing<-slug")).
Proof.
  rewrite resolve_reviews_list. destruct (valid_segment seg); [|done].
  intros [= <- <- <-]. split; [done|]. split; [done|].
  unfold perform_create, ReviewViewSet_perform_create, bind, lift, kwargs_item.
  simpl. by rewrite lookup_singleton_ne.
Qed.

(** C8 (the code departs from the specification).  Every request that the URL
    patterns route to the nested review collection (the collection itself
    or one review) carries the parent segment under the key ['listing_pk']:
    the parent view set's lookup field is the inherited ['pk'].
    [ReviewViewSet.get_queryset] reads ['listing_slug'] and raises
    [KeyError]; no set of reviews is produced. *)
Theorem review_queryset_raises_KeyError m seg tail c a kw request s :
  resolve DEFAULT_PERMISSION_CLASSES m ("listings" :: seg :: "reviews" :: tail)
  = Some (c, a, kw) ->
  c = ReviewViewSet /\
  kw !! "listing_pk" = Some seg /\
  kw !! "listing_slug" = None /\
  get_queryset DEFAULT_PERMISSION_CLASSES (mk_view c a kw request) s
  = (s, Raise (KeyError "listing_slug")).
Proof.
  intros H.
  assert (c = ReviewViewSet /\ kw !! "listing_pk" = Some seg /\
          kw !! "listing_slug" = None) as (-> & Hpk & Hslug).
  { destruct tail as [|seg2 [|]]; [| |done].
    - rewrite resolve_reviews_list in H.
      destruct (valid_segment seg); [|done]. injection H as <- <- <-.
      by rewrite lookup_singleton_eq, lookup_singleton_ne.
    - rewrite resolve_reviews_detail in H.
      destruct (valid_segment seg && valid_segment seg2); [|done].
      injection H as <- <- <-.
      rewrite !lookup_insert_ne by done.
      by rewrite lookup_singleton_eq, lookup_singleton_ne. }
  repeat split; try done.
  unfold get_queryset, ReviewViewSet_get_queryset, bind, lift, kwargs_item.
  simpl. by rewrite Hslug.
Qed.

(** C9 (the code departs from the specification).  The review class binds its
    permission list to [permission_class], so the classes in force are the
    settings' default, for reads and writes alike.  For an unauthenticated
    write the list written in the class would refuse the request, while
    the check in force under the framework's stock default ([AllowAny])
    admits it. *)
Theorem review_write_admits_anonymous request action kwargs :
  req_user request = AnonymousUser ->
  is_safe (req_method request) = false ->
  get_permissions DEFAULT_PERMISSION_CLASSES
    (mk_view ReviewViewSet action kwargs request)
  = (mk_view ReviewViewSet action kwargs request, Ok DEFAULT_PERMISSION_CLASSES) /\
  check_each [IsAuthenticatedOrReadOnly; IsOwnerOrReadOnly] request
  = Raise NotAuthenticated /\
  check_permissions [AllowAny] (mk_view ReviewViewSet action kwargs request)
  = (mk_view ReviewViewSet action kwargs request, Ok tt).
Proof.
  intros Hu Hm. split; [by apply ReviewViewSet_permissions_default|]. split.
  - simpl. rewrite Hm, Hu. simpl. unfold permission_denied. by rewrite Hu.
  - vm_compute. reflexivity.
Qed.

(** *** Single listings are looked up by primary key *)

Lemma resolve_listings_detail m seg :
  resolve DEFAULT_PERMISSION_CLASSES m ["listings"; seg]
  = if valid_segment seg
    then Some (ListingViewset, action_of detail_mapping m, {[ "pk" := seg ]})
    else None.
Proof.
  unfold resolve. destruct (valid_segment seg); vm_compute; reflexivity.
Qed.

Lemma ListingViewset_queryset action kwargs request s :
  get_queryset' (mk_view ListingViewset action kwargs request) s
  = (s, Ok (OListing <$> listings s)).
Proof. reflexivity. Qed.

Lemma ListingViewset_lookup_field action kwargs request :
  lookup_field DEFAULT_PERMISSION_CLASSES
    (mk_view ListingViewset action kwargs request) = Ok "pk".
Proof. reflexivity. Qed.

(** With primary keys unique, the listing whose key the segment spells is
    found. *)
Lemma filter_unique_pk (ls : list Listing) l :
  NoDup (listing_pk <$> ls) -> l ∈ ls ->
  filter (fun o => obj_pk o = listing_pk l) (OListing <$> ls) = [OListing l].
Proof.
  induction ls as [|x ls IH]; intros Hnd Hin; [by apply elem_of_nil in Hin|].
  rewrite fmap_cons in Hnd. apply NoDup_cons in Hnd as [Hx Hnd].
  rewrite fmap_cons.
  destruct (decide (listing_pk x = listing_pk l)) as [Heq|Hne].
  - assert (x = l) as ->.
    { apply elem_of_cons in Hin as [->|Hin]; [done|].
      exfalso. apply Hx. rewrite Heq. apply list_elem_of_fmap. eauto. }
    rewrite filter_cons_True by done. f_equal.
    destruct (filter _ (OListing <$> ls)) as [|y ys] eqn:Hf; [done|].
    assert (y ∈ filter (fun o => obj_pk o = listing_pk l) (OListing <$> ls))
      as [Hy Hyin]%list_elem_of_filter by (rewrite Hf; left).
    apply list_elem_of_fmap in Hyin as (l' & -> & Hl'). simpl in Hy.
    exfalso. apply Hx. rewrite <- Hy. apply list_elem_of_fmap. eauto.
  - rewrite filter_cons_False by done. apply IH; [done|].
    apply elem_of_cons in Hin as [->|Hin]; done.
Qed.

Lemma listing_found_by_pk seg l s :
  NoDup (listing_pk <$> listings s) ->
  l ∈ listings s ->
  py_int seg = Some (listing_pk l) ->
  get_object_or_404 py_int (OListing <$> listings s) "pk" seg = Ok (OListing l).
Proof.
  intros Hnd Hin Hpk. unfold get_object_or_404.
  rewrite (filter_by_pk_number _ (listing_pk l)) by done.
  by rewrite filter_unique_pk.
Qed.

(** A segment that is not a number finds nothing, whatever the slugs. *)
Lemma listing_not_found_by_slug seg s :
  py_int seg = None ->
  get_object_or_404 py_int (OListing <$> listings s) "pk" seg = Raise Http404.
Proof.
  intros Hn. apply get_object_or_404_absent. intros o _. by rewrite Hn.
Qed.

(** C10.  A request for a single listing, [/listings/<segment>/], reaches
    the listing view set with the segment under the key ['pk']: the class
    binds ['slug'] to [lookkup_field], and [lookup_field] is the inherited
    ['pk'].  Whenever [get_object] then returns an object, it is a listing
    of the table whose primary key is the number the segment spells; the
    slug takes no part in the lookup. *)
Theorem listing_detail_lookup_is_pk m seg c a kw request s s1 o :
  resolve DEFAULT_PERMISSION_CLASSES m ["listings"; seg] = Some (c, a, kw) ->
  get_object DEFAULT_PERMISSION_CLASSES owner_field py_int
    (mk_view c a kw request) s
  = (s1, Ok o) ->
  c = ListingViewset /\ kw = {[ "pk" := seg ]} /\
  class_dict ListingViewset !! "lookkup_field" = Some (AStr "slug") /\
  lookup_field DEFAULT_PERMISSION_CLASSES (mk_view c a kw request) = Ok "pk" /\
  exists l, o = OListing l /\ l ∈ listings s /\
            py_int seg = Some (listing_pk l).
Proof.
  rewrite resolve_listings_detail. destruct (valid_segment seg); [|done].
  intros [= <- <- <-] Hget.
  repeat (split; [reflexivity|]).
  apply get_object_inv in Hget as (-> & q & f & v & Hq & Hf & Hin & Hm & k & Hk).
  rewrite ListingViewset_queryset in Hq. injection Hq as <-.
  rewrite ListingViewset_lookup_field in Hf. injection Hf as <-.
  simpl in Hk. apply lookup_singleton_Some in Hk as [_ <-].
  apply list_elem_of_fmap in Hin as (l & -> & Hl).
  exists l. repeat split; [done|].
  rewrite field_matches_pk in Hm.
  destruct (py_int seg) as [n|]; [|done].
  injection Hm as Hm. apply Z.eqb_eq in Hm. simpl in Hm. by rewrite Hm.
Qed.

(** * The rest of the API *)

(** ** The route table *)

Lemma find_registration_router p r :
  find_registration router p = Some r ->
  reg_prefix r = p /\ r ∈ router.
Proof.
  unfold find_registration, router. cbn [find reg_prefix].
  repeat match goal with
         | |- context [String.eqb ?a p] => destruct (String.eqb_spec a p)
         end; intros H; simplify_eq; simpl; (split; [done|]);
    repeat constructor.
Qed.

Lemma get_lookup_group_pk c :
  get_lookup_group DEFAULT_PERMISSION_CLASSES c "" = "pk".
Proof. destruct c; reflexivity. Qed.

Lemma parent_lookup_group_listing :
  parent_lookup_group DEFAULT_PERMISSION_CLASSES listings_router
  = Some "listing_pk".
Proof. reflexivity. Qed.

Lemma find_registration_nested third r :
  find_registration (nested_registry listings_router) third = Some r ->
  third = "reviews" /\ reg_viewset r = ReviewViewSet.
Proof.
  unfold find_registration, listings_router. cbn [nested_registry find reg_prefix].
  destruct (String.eqb_spec "reviews" third); intros H; by simplify_eq.
Qed.

(** Every routed request has one of five shapes. *)
Lemma resolve_inv m path c a kw :
  resolve DEFAULT_PERMISSION_CLASSES m path = Some (c, a, kw) ->
  (exists r, r ∈ router /\ path = [reg_prefix r] /\ c = reg_viewset r /\
             a = action_of list_mapping m /\ kw = ∅) \/
  (exists r seg, r ∈ router /\ path = [reg_prefix r; seg] /\
                 c = reg_viewset r /\ valid_segment seg = true /\
                 a = action_of detail_mapping m /\ kw = {[ "pk" := seg ]}) \/
  (exists seg, path = ["bookings"; seg; "cancel"] /\ c = BookingViewset /\
               valid_segment seg = true /\
               a = action_of [(POST, "cancel")] m /\ kw = {[ "pk" := seg ]}) \/
  (exists seg, path = ["listings"; seg; "reviews"] /\ c = ReviewViewSet /\
               valid_segment seg = true /\
               a = action_of list_mapping m /\ kw = {[ "listing_pk" := seg ]}) \/
  (exists seg seg2, path = ["listings"; seg; "reviews"; seg2] /\
                    c = ReviewViewSet /\
                    valid_segment seg = true /\ valid_segment seg2 = true /\
                    a = action_of detail_mapping m /\
                    kw = <[ "pk" := seg2 ]> {[ "listing_pk" := seg ]}).
Proof.
  unfold resolve. intros H.
  destruct path as [|p [|seg [|third [|seg2 [|]]]]]; try done.
  - left. apply bind_Some in H as (r & Hr & [= <- <- <-]).
    apply find_registration_router in Hr as [<- Hr]. eauto 10.
  - right; left. apply bind_Some in H as (r & Hr & H).
    destruct (valid_segment seg) eqn:Hv; [|done]. injection H as <- <- <-.
    apply find_registration_router in Hr as [<- Hr].
    rewrite get_lookup_group_pk. eauto 10.
  - match type of H with
    | match ?first with Some _ => _ | None => _ end = _ =>
        destruct first as [found|] eqn:Hfirst
    end.
    + right; right; left. injection H as ->.
      apply bind_Some in Hfirst as (r & Hr & Hfirst).
      apply bind_Some in Hfirst as (mapping & Hf & Hfirst).
      apply fmap_Some in Hf as (e & Hf & ->).
      apply find_registration_router in Hr as [<- Hr].
      destruct (valid_segment seg) eqn:Hv; [|done].
      injection Hfirst as <- <- <-. rewrite get_lookup_group_pk.
      repeat (apply elem_of_cons in Hr as [->|Hr]);
        [done|done| |by apply elem_of_nil in Hr].
      cbn [extra_detail_actions reg_viewset find fst] in Hf.
      destruct (String.eqb_spec "cancel" third); [|done].
      injection Hf as <-. subst third. exists seg. done.
    + right; right; right; left.
      destruct (String.eqb_spec p (parent_prefix listings_router)); [|done].
      destruct (valid_segment seg) eqn:Hv; [|done]. cbn [andb] in H.
      rewrite parent_lookup_group_listing in H.
      apply bind_Some in H as (group & [= <-] & H).
      apply bind_Some in H as (r & Hr & [= <- <- <-]).
      apply find_registration_nested in Hr as [-> ->]. subst p.
      exists seg. done.
  - right; right; right; right.
    destruct (String.eqb_spec p (parent_prefix listings_router)); [|done].
    destruct (valid_segment seg) eqn:Hv; [|done].
    destruct (valid_segment seg2) eqn:Hv2; [|done]. cbn [andb] in H.
    rewrite parent_lookup_group_listing in H.
    apply bind_Some in H as (group & [= <-] & H).
    apply bind_Some in H as (r & Hr & [= <- <- <-]).
    apply find_registration_nested in Hr as [-> Hc]. subst p.
    rewrite get_lookup_group_pk, Hc. exists seg, seg2. done.
Qed.

(** The routes of [resolve], as a table: a collection and a single
    instance of the three resources registered on [router], the cancel
    action of a booking, and the review collection and a single review
    below a listing.  Instances travel under the key ['pk'], the parent
    listing of a review under ['listing_pk']. *)
Lemma resolve_table m path c a kw :
  resolve DEFAULT_PERMISSION_CLASSES m path = Some (c, a, kw) <->
  (exists r, r ∈ router /\ path = [reg_prefix r] /\ c = reg_viewset r /\
             a = action_of list_mapping m /\ kw = ∅) \/
  (exists r seg, r ∈ router /\ path = [reg_prefix r; seg] /\
                 c = reg_viewset r /\ valid_segment seg = true /\
                 a = action_of detail_mapping m /\ kw = {[ "pk" := seg ]}) \/
  (exists seg, path = ["bookings"; seg; "cancel"] /\ c = BookingViewset /\
               valid_segment seg = true /\
               a = action_of [(POST, "cancel")] m /\ kw = {[ "pk" := seg ]}) \/
  (exists seg, path = ["listings"; seg; "reviews"] /\ c = ReviewViewSet /\
               valid_segment seg = true /\
               a = action_of list_mapping m /\ kw = {[ "listing_pk" := seg ]}) \/
  (exists seg seg2, path = ["listings"; seg; "reviews"; seg2] /\
                    c = ReviewViewSet /\
                    valid_segment seg = true /\ valid_segment seg2 = true /\
                    a = action_of detail_mapping m /\
                    kw = <[ "pk" := seg2 ]> {[ "listing_pk" := seg ]}).
Proof.
  split; [apply resolve_inv|].
  intros [(r & Hr & -> & -> & -> & ->)
         |[(r & seg & Hr & -> & -> & Hv & -> & ->)
          |[(seg & -> & -> & Hv & -> & ->)
           |[(seg & -> & -> & Hv & -> & ->)
            |(seg & seg2 & -> & -> & Hv & Hv2 & -> & ->)]]]];
    try (repeat (apply elem_of_cons in Hr as [->|Hr]);
         [ | | | by apply elem_of_nil in Hr ]);
    unfold resolve; cbn [reg_prefix]; rewrite ?Hv, ?Hv2;
    vm_compute; reflexivity.
Qed.

(** *** Format suffixes *)

Lemma split_dot_app stem rest :
  no_dot stem = true -> split_dot (stem ++ "." ++ rest) = Some (stem, rest).
Proof.
  induction stem as [|c stem IH]; simpl; [done|].
  intros [Hc Hstem]%andb_true_iff. apply negb_true_iff in Hc.
  by rewrite Hc, IH.
Qed.

Lemma split_dot_inv s stem rest :
  split_dot s = Some (stem, rest) ->
  s = stem ++ "." ++ rest /\ no_dot stem = true.
Proof.
  revert stem. induction s as [|c s IH]; intros stem; simpl; [done|].
  destruct (Ascii.eqb_spec c "."%char) as [->|Hne].
  - by intros [= <- <-].
  - destruct (split_dot s) as [[stem' rest']|]; [|done].
    intros [= <- <-]. destruct (IH stem' eq_refl) as [-> Hstem].
    split; [done|]. simpl. rewrite Hstem, andb_true_r.
    by apply negb_true_iff, Ascii.eqb_neq.
Qed.

Lemma no_dot_app_dot stem rest : no_dot (stem ++ "." ++ rest) = false.
Proof.
  induction stem as [|c stem IH]; simpl; [done|].
  by rewrite IH, andb_false_r.
Qed.

Lemma format_suffix_Some seg stem fmt :
  format_suffix seg = Some (stem, fmt) <->
  seg = stem ++ "." ++ fmt /\ no_dot stem = true /\ is_format fmt = true.
Proof.
  unfold format_suffix. split.
  - destruct (split_dot seg) as [[stem' fmt']|] eqn:Hs; [|done].
    destruct (is_format fmt') eqn:Hf; [|done]. intros [= <- <-].
    apply split_dot_inv in Hs as [-> ?]. done.
  - intros (-> & Hstem & Hf). by rewrite split_dot_app, Hf.
Qed.

Lemma resolve_dotted m prefix stem fmt :
  resolve DEFAULT_PERMISSION_CLASSES m [prefix; stem ++ "." ++ fmt] = None.
Proof.
  unfold resolve, valid_segment. rewrite no_dot_app_dot, andb_false_r.
  by destruct (find_registration router prefix).
Qed.

(** X1.  What [urlpatterns] of urls.py routes, beside the routes of
    [resolve]: the API root, with and without a format suffix; for each
    resource registered on [router], its collection, its single instances
    and the cancel action of a booking once more with a format suffix
    [[a-z0-9]+] on the last segment, handed on under the key ['format'];
    and the login and logout pages at [api-authlogin] and
    [api-authlogout].  The review routes have no suffixed copies.  Nothing
    else is routed. *)
Theorem urlpatterns_routes m path t :
  urlpatterns DEFAULT_PERMISSION_CLASSES m path = Some t <->
  (exists c a kw,
      resolve DEFAULT_PERMISSION_CLASSES m path = Some (c, a, kw) /\
      t = ViewSetRoute c a kw) \/
  (path = [] /\ t = ApiRoot ∅) \/
  (exists fmt, is_format fmt = true /\ path = ["." ++ fmt] /\
               t = ApiRoot {[ "format" := fmt ]}) \/
  (exists r fmt, r ∈ router /\ is_format fmt = true /\
                 path = [reg_prefix r ++ "." ++ fmt] /\
                 t = ViewSetRoute (reg_viewset r) (action_of list_mapping m)
                       {[ "format" := fmt ]}) \/
  (exists r stem fmt, r ∈ router /\ valid_segment stem = true /\
                      is_format fmt = true /\
                      path = [reg_prefix r; stem ++ "." ++ fmt] /\
                      t = ViewSetRoute (reg_viewset r)
                            (action_of detail_mapping m)
                            (<[ "format" := fmt ]> {[ "pk" := stem ]})) \/
  (exists seg fmt, valid_segment seg = true /\ is_format fmt = true /\
                   path = ["bookings"; seg; "cancel" ++ "." ++ fmt] /\
                   t = ViewSetRoute BookingViewset
                         (action_of [(POST, "cancel")] m)
                         (<[ "format" := fmt ]> {[ "pk" := seg ]})) \/
  (path = ["api-authlogin"] /\ t = AuthPage "login") \/
  (path = ["api-authlogout"] /\ t = AuthPage "logout").
Proof.
  split.
  - unfold urlpatterns.
    destruct (resolve _ m path) as [[[c a] kw]|] eqn:Hr.
    { intros [= <-]. left. eauto. }
    intros H. right.
    destruct path as [|seg [|seg2 [|third [|]]]]; [| | | |done].
    + left. by injection H as <-.
    + destruct (format_suffix seg) as [[stem fmt]|] eqn:Hf.
      * apply format_suffix_Some in Hf as (-> & Hstem & Hfmt).
        destruct (String.eqb_spec stem "") as [->|Hne].
        { injection H as <-. right; left. eauto. }
        destruct (find_registration router stem) as [r|] eqn:Hreg; [|done].
        apply find_registration_router in Hreg as [<- Hin].
        injection H as <-. right; right; left. eauto 10.
      * destruct (String.eqb_spec seg "api-authlogin") as [->|_].
        { injection H as <-. do 5 right. by left. }
        destruct (String.eqb_spec seg "api-authlogout") as [->|_]; [|done].
        injection H as <-. do 6 right. done.
    + destruct (format_suffix seg2) as [[stem fmt]|] eqn:Hf; [|done].
      apply format_suffix_Some in Hf as (-> & Hstem & Hfmt).
      destruct (find_registration router seg) as [r|] eqn:Hreg; [|done].
      apply find_registration_router in Hreg as [<- Hin].
      destruct (valid_segment stem) eqn:Hv; [|done].
      injection H as <-. rewrite get_lookup_group_pk.
      do 3 right; left. eauto 10.
    + destruct (format_suffix third) as [[name fmt]|] eqn:Hf; [|done].
      apply format_suffix_Some in Hf as (-> & Hname & Hfmt).
      destruct (find_registration router seg) as [r|] eqn:Hreg; [|done].
      apply find_registration_router in Hreg as [<- Hin].
      destruct (find _ (extra_detail_actions (reg_viewset r)))
        as [[name' mapping]|] eqn:Hfind; [|done].
      destruct (valid_segment seg2) eqn:Hv; [|done].
      injection H as <-. rewrite get_lookup_group_pk.
      repeat (apply elem_of_cons in Hin as [->|Hin]);
        [done|done| |by apply elem_of_nil in Hin].
      cbn [extra_detail_actions reg_viewset find fst] in Hfind.
      destruct (String.eqb_spec "cancel" name) as [<-|]; [|done].
      injection Hfind as <- <-.
      do 4 right; left. exists seg2, fmt. done.
  - intros [(c & a & kw & Hr & ->)
           |[[-> ->]
            |[(fmt & Hf & -> & ->)
             |[(r & fmt & Hin & Hf & -> & ->)
              |[(r & stem & fmt & Hin & Hv & Hf & -> & ->)
               |[(seg & fmt & Hv & Hf & -> & ->)
                |[[-> ->]|[-> ->]]]]]]]];
      unfold urlpatterns.
    + by rewrite Hr.
    + reflexivity.
    + replace (resolve _ m ["." ++ fmt]) with (@None (viewset * option string * gmap string string)) by reflexivity.
      replace (format_suffix ("." ++ fmt)) with (Some ("", fmt))
        by (symmetry; apply format_suffix_Some; done).
      reflexivity.
    + assert (format_suffix (reg_prefix r ++ "." ++ fmt)
              = Some (reg_prefix r, fmt)) as Hs.
      { apply format_suffix_Some. repeat split; [|done].
        repeat (apply elem_of_cons in Hin as [->|Hin]); try reflexivity.
        by apply elem_of_nil in Hin. }
      rewrite Hs.
      repeat (apply elem_of_cons in Hin as [->|Hin]);
        [ reflexivity .. | by apply elem_of_nil in Hin ].
    + rewrite resolve_dotted.
      replace (format_suffix (stem ++ "." ++ fmt)) with (Some (stem, fmt)).
      2:{ symmetry. apply format_suffix_Some. repeat split; [|done].
          unfold valid_segment in Hv. by apply andb_true_iff in Hv as [_ ?]. }
      rewrite Hv.
      repeat (apply elem_of_cons in Hin as [->|Hin]);
        [ reflexivity .. | by apply elem_of_nil in Hin ].
    + replace (resolve _ m ["bookings"; seg; "cancel" ++ "." ++ fmt])
        with (@None (viewset * option string * gmap string string)).
      2:{ unfold resolve. destruct (valid_segment seg); reflexivity. }
      replace (format_suffix ("cancel" ++ "." ++ fmt))
        with (Some ("cancel", fmt))
        by (symmetry; apply format_suffix_Some; done).
      cbn [find_registration router find reg_prefix]. simpl. by rewrite Hv.
    + reflexivity.
    + reflexivity.
Qed.

(** ** What leaves the store alone *)

Lemma check_each_raise ps request e :
  check_each ps request = Raise e -> e = permission_denied request.
Proof.
  induction ps as [|p ps IH]; simpl; [done|].
  destruct (has_permission p request); [done|]. by intros [= <-].
Qed.

Lemma handle_exception_denied request :
  handle_exception request (permission_denied request)
  = error_response
      (if is_authenticated (req_user request) then 403
       else if req_authenticate_header request then 401 else 403).
Proof.
  unfold permission_denied. by destruct (is_authenticated (req_user request)).
Qed.

Lemma list_action_store self s s1 r :
  list_action DEFAULT_PERMISSION_CLASSES self s = (s1, r) -> s1 = s.
Proof.
  unfold list_action, bind, lift, ret. intros H.
  destruct (get_queryset' self s) as [s2 [q|e]] eqn:Hq;
    apply get_queryset_store in Hq as ->; [|by simplify_eq].
  destruct (get_serializer_class _ self); by simplify_eq.
Qed.

Lemma retrieve_store self s s1 r :
  retrieve DEFAULT_PERMISSION_CLASSES owner_field py_int self s = (s1, r) ->
  s1 = s.
Proof.
  unfold retrieve, bind, lift, ret. intros H.
  destruct (get_object' self s) as [s2 [o|e]] eqn:Ho;
    apply get_object_store in Ho as ->; [|by simplify_eq].
  destruct (get_serializer_class _ self); by simplify_eq.
Qed.

(** The actions a safe method can be mapped to. *)
Lemma action_of_safe mapping m :
  mapping ∈ [list_mapping; detail_mapping; [(POST, "cancel")]] ->
  is_safe m = true ->
  action_of mapping m ∈ [None; Some "list"; Some "retrieve"; Some "metadata"].
Proof.
  intros Hmap Hm.
  repeat (apply elem_of_cons in Hmap as [->|Hmap]);
    [ | | | by apply elem_of_nil in Hmap ];
    destruct m; try discriminate Hm; vm_compute; repeat constructor.
Qed.

Lemma resolve_mapping m path c a kw :
  resolve DEFAULT_PERMISSION_CLASSES m path = Some (c, a, kw) ->
  exists mapping,
    mapping ∈ [list_mapping; detail_mapping; [(POST, "cancel")]] /\
    a = action_of mapping m.
Proof.
  intros [(r & _ & _ & _ & -> & _)
         |[(r & seg & _ & _ & _ & _ & -> & _)
          |[(seg & _ & _ & _ & -> & _)
           |[(seg & _ & _ & _ & -> & _)
            |(seg & seg2 & _ & _ & _ & _ & -> & _)]]]]%resolve_inv;
    eexists; (split; [|reflexivity]); repeat constructor.
Qed.

Lemma handler_safe_store self s s1 r :
  v_action self ∈ [None; Some "list"; Some "retrieve"; Some "metadata"] ->
  handler' self s = (s1, r) -> s1 = s.
Proof.
  intros Ha H. unfold handler in H.
  repeat (apply elem_of_cons in Ha as [Ha'|Ha]);
    [ rewrite Ha' in H .. | by apply elem_of_nil in Ha ]; simpl in H.
  - unfold raise in H. by simplify_eq.
  - by eapply list_action_store.
  - by eapply retrieve_store.
  - unfold raise in H. by simplify_eq.
Qed.

(** X2.  A request with a safe method (GET, HEAD, OPTIONS) leaves the
    store as it was, whichever path it names and however it ends. *)
Theorem safe_methods_read_only request path s s' o :
  is_safe (req_method request) = true ->
  serve DEFAULT_PERMISSION_CLASSES owner_field py_int run_validation
    request path s = Some (s', o) ->
  s' = s.
Proof.
  intros Hm H. unfold serve in H.
  destruct (resolve _ _ path) as [[[c a] kw]|] eqn:Hr; [|done].
  injection H as H.
  apply resolve_mapping in Hr as (mapping & Hmap & ->).
  pose proof (action_of_safe mapping _ Hmap Hm) as Ha.
  unfold dispatch in H.
  destruct (check_permissions _ _) as [self' [[]|e]] eqn:Hc; [|by simplify_eq].
  apply check_permissions_view in Hc as (_ & _ & Hact & _). simpl in Hact.
  rewrite <- Hact in Ha.
  destruct (is_metadata (v_action self')); [by simplify_eq|].
  destruct (handler' self' s) as [s2 [r|e]] eqn:Hh;
    apply (handler_safe_store _ _ _ _ Ha) in Hh; by simplify_eq.
Qed.

(** Rows with the same key in a table with unique keys are the same row. *)
Lemma unique_key {A} (key : A -> Z) (l : list A) x y :
  NoDup (key <$> l) -> x ∈ l -> y ∈ l -> key x = key y -> x = y.
Proof.
  induction l as [|z l IH]; intros Hnd Hx Hy Hk; [by apply elem_of_nil in Hx|].
  rewrite fmap_cons in Hnd. apply NoDup_cons in Hnd as [Hz Hnd].
  apply elem_of_cons in Hx as [->|Hx]; apply elem_of_cons in Hy as [->|Hy];
    [done| | |by apply IH].
  - exfalso. apply Hz. rewrite Hk. apply list_elem_of_fmap. eauto.
  - exfalso. apply Hz. rewrite <- Hk. apply list_elem_of_fmap. eauto.
Qed.

Lemma fmap_fixed {A} (f : A -> A) (l : list A) :
  (forall x, x ∈ l -> f x = x) -> f <$> l = l.
Proof.
  induction l as [|z l IH]; intros Hf; [done|].
  rewrite fmap_cons, Hf, IH; [done| |]; [|left].
  intros x Hx. apply Hf. by right.
Qed.

(** Saving a booking that was read and not modified changes nothing. *)
Lemma save_unmodified b s :
  NoDup (booking_pk <$> bookings s) -> b ∈ bookings s ->
  save (OBooking b) s = (s, Ok tt).
Proof.
  intros Hnd Hb. unfold save, with_bookings. rewrite fmap_fixed.
  - by destruct s.
  - intros r Hr. destruct (booking_pk r =? booking_pk b) eqn:E; [|done].
    apply Z.eqb_eq in E. symmetry. by eapply (unique_key booking_pk).
Qed.

Lemma cancel_store self s s1 r :
  NoDup (booking_pk <$> bookings s) ->
  cancel' self s = (s1, r) -> s1 = s.
Proof.
  intros Hnd H. unfold BookingViewset_cancel, bind in H.
  destruct (get_object' self s) as [s2 [o|e]] eqn:Ho; [|].
  - destruct o as [u|l|b|rv];
      try (apply get_object_store in Ho as ->; unfold raise in H;
           by simplify_eq).
    apply get_object_booking in Ho as [-> Hb].
    case_bool_decide.
    + rewrite save_unmodified in H by done. unfold lift in H.
      rewrite status_HTTP_200_OK in H. unfold ret in H. by simplify_eq.
    + unfold lift in H. rewrite status_HTT_400_BAD_REQUEST in H.
      by simplify_eq.
  - apply get_object_store in Ho as ->. by simplify_eq.
Qed.

Lemma resolve_bookings_cancel_any m seg :
  resolve DEFAULT_PERMISSION_CLASSES m ["bookings"; seg; "cancel"]
  = if valid_segment seg
    then Some (BookingViewset, action_of [(POST, "cancel")] m, {[ "pk" := seg ]})
    else None.
Proof.
  unfold resolve. destruct (valid_segment seg); vm_compute; reflexivity.
Qed.

(** X3.  Whatever the method, the requester and the outcome (200, 404,
    403, 405 or an exception), a request to the cancel route of a booking
    leaves a store with unique booking keys exactly as it was: the action
    never changes any booking.  Sending the same request again therefore
    has the same outcome, a second cancel of a CONFIRMED booking
    included. *)
Theorem cancel_route_never_changes_store request seg s s' o :
  NoDup (booking_pk <$> bookings s) ->
  serve DEFAULT_PERMISSION_CLASSES owner_field py_int run_validation
    request ["bookings"; seg; "cancel"] s = Some (s', o) ->
  s' = s /\
  serve DEFAULT_PERMISSION_CLASSES owner_field py_int run_validation
    request ["bookings"; seg; "cancel"] s' = Some (s', o).
Proof.
  intros Hnd H0.
  assert (s' = s) as ->; [|done].
  pose proof H0 as H.
  unfold serve in H. rewrite resolve_bookings_cancel_any in H.
  destruct (valid_segment seg); [|done]. injection H as H.
  unfold dispatch in H.
  destruct (check_permissions _ _) as [self' [[]|e]] eqn:Hc; [|by simplify_eq].
  apply check_permissions_same in Hc as ->; [|done].
  destruct (is_metadata _); [by simplify_eq|].
  destruct (handler' _ s) as [s2 [r|e]] eqn:Hh; injection H as <- _;
    unfold handler in Hh; destruct (req_method request);
    simpl in Hh; unfold raise, ret in Hh;
    solve [ by simplify_eq | by eapply cancel_store ].
Qed.

(** X4.  Cancelling is bound to POST only: for an authenticated requester,
    GET, HEAD, PUT, PATCH and DELETE on the cancel route are answered 405
    with the store unchanged, without looking the booking up. *)
Theorem cancel_route_post_only request P seg s :
  req_user request = AuthUser P ->
  valid_segment seg = true ->
  req_method request ∈ [GET; HEAD; PUT; PATCH; DELETE] ->
  serve DEFAULT_PERMISSION_CLASSES owner_field py_int run_validation
    request ["bookings"; seg; "cancel"] s
  = Some (s, error_response 405).
Proof.
  intros Hu Hv Hm. unfold serve. rewrite resolve_bookings_cancel by done.
  f_equal.
  change (dispatch'
            (mk_view BookingViewset
               (action_of [(POST, "cancel")] (req_method request))
               {[ "pk" := seg ]} request) s
          = (s, error_response 405)).
  unfold dispatch.
  rewrite (BookingViewset_check_permissions _ _ _ P) by done.
  repeat (apply elem_of_cons in Hm as [->|Hm]);
    [ reflexivity .. | by apply elem_of_nil in Hm ].
Qed.

(** ** The view sets that demand authentication *)



(** ** Finding an instance *)

Lemma filter_unique_obj (q : list Obj) o :
  NoDup (obj_pk <$> q) -> o ∈ q ->
  filter (fun x => obj_pk x = obj_pk o) q = [o].
Proof.
  induction q as [|x q IH]; intros Hnd Hin; [by apply elem_of_nil in Hin|].
  rewrite fmap_cons in Hnd. apply NoDup_cons in Hnd as [Hx Hnd].
  destruct (decide (obj_pk x = obj_pk o)) as [Heq|Hne].
  - assert (x = o) as ->.
    { apply elem_of_cons in Hin as [->|Hin]; [done|].
      exfalso. apply Hx. rewrite Heq. apply list_elem_of_fmap. eauto. }
    rewrite filter_cons_True by done. f_equal.
    destruct (filter _ q) as [|y ys] eqn:Hf; [done|].
    assert (y ∈ filter (fun x => obj_pk x = obj_pk o) q)
      as [Hy Hyin]%list_elem_of_filter by (rewrite Hf; left).
    exfalso. apply Hx. rewrite <- Hy. apply list_elem_of_fmap. eauto.
  - rewrite filter_cons_False by done. apply IH; [done|].
    apply elem_of_cons in Hin as [->|Hin]; done.
Qed.

Lemma get_object_or_404_found q seg o :
  NoDup (obj_pk <$> q) -> o ∈ q -> py_int seg = Some (obj_pk o) ->
  get_object_or_404 py_int q "pk" seg = Ok o.
Proof.
  intros Hnd Hin Hpk. unfold get_object_or_404.
  rewrite (filter_by_pk_number _ (obj_pk o)) by done.
  by rewrite filter_unique_obj.
Qed.

Lemma get_object_found self s q seg o :
  get_queryset' self s = (s, Ok q) ->
  lookup_url_kwarg DEFAULT_PERMISSION_CLASSES self = Ok "pk" ->
  lookup_field DEFAULT_PERMISSION_CLASSES self = Ok "pk" ->
  v_kwargs self !! "pk" = Some seg ->
  NoDup (obj_pk <$> q) -> o ∈ q -> py_int seg = Some (obj_pk o) ->
  snd (check_object_permissions DEFAULT_PERMISSION_CLASSES owner_field self o)
  = Ok tt ->
  get_object' self s = (s, Ok o).
Proof.
  intros Hq Hk Hf Hkw Hnd Hin Hpk Hperm. unfold get_object, bind, lift, ret.
  rewrite Hq, Hk, Hf, Hkw, (get_object_or_404_found q seg o) by done.
  by rewrite Hperm.
Qed.

(** ** Users *)

Lemma resolve_users_list m :
  resolve DEFAULT_PERMISSION_CLASSES m ["users"]
  = Some (UserViewset, action_of list_mapping m, ∅).
Proof. reflexivity. Qed.

Lemma resolve_users_detail m seg :
  valid_segment seg = true ->
  resolve DEFAULT_PERMISSION_CLASSES m ["users"; seg]
  = Some (UserViewset, action_of detail_mapping m, {[ "pk" := seg ]}).
Proof. intros Hv. unfold resolve. rewrite Hv. vm_compute. reflexivity. Qed.

Lemma UserViewset_check_permissions action kwargs request P :
  req_user request = AuthUser P ->
  check_permissions DEFAULT_PERMISSION_CLASSES
    (mk_view UserViewset action kwargs request)
  = (mk_view UserViewset action kwargs request, Ok tt).
Proof.
  intros Hu. unfold check_permissions.
  replace (get_permissions _ _)
    with (mk_view UserViewset action kwargs request,
          Ok (A := list permission_class) [IsAuthenticated])
    by reflexivity.
  simpl. by rewrite Hu.
Qed.

(** X6.  [UserViewset] has no per-user filter: an authenticated requester
    gets every stored user from GET /users/, and GET /users/<id>/ returns
    the user with that id whoever it is (user keys being unique). *)
Theorem users_open_to_authenticated request P s :
  req_user request = AuthUser P ->
  req_method request = GET ->
  serve DEFAULT_PERMISSION_CLASSES owner_field py_int run_validation
    request ["users"] s
  = Some (s, Responded {| resp_data := PMany UserSerializer (OUser <$> users s);
                          resp_status := 200 |}) /\
  (forall seg u,
      valid_segment seg = true -> py_int seg = Some u ->
      u ∈ users s -> NoDup (users s) ->
      serve DEFAULT_PERMISSION_CLASSES owner_field py_int run_validation
        request ["users"; seg] s
      = Some (s, Responded {| resp_data := POne UserSerializer (OUser u);
                              resp_status := 200 |})).
Proof.
  intros Hu Hm. split.
  - unfold serve. rewrite resolve_users_list, Hm. f_equal.
    match goal with
    | |- _ = ?rhs =>
        change (dispatch' (mk_view UserViewset (Some "list") ∅ request) s = rhs)
    end.
    unfold dispatch.
    rewrite (UserViewset_check_permissions _ _ _ P) by done.
    reflexivity.
  - intros seg u Hv Hpk Hin Hnd.
    unfold serve. rewrite resolve_users_detail, Hm by done. f_equal.
    match goal with
    | |- _ = ?rhs =>
        change (dispatch'
                  (mk_view UserViewset (Some "retrieve") {[ "pk" := seg ]}
                     request) s = rhs)
    end.
    unfold dispatch.
    rewrite (UserViewset_check_permissions _ _ _ P) by done.
    unfold handler. simpl. unfold retrieve, bind.
    rewrite (get_object_found _ s (OUser <$> users s) seg (OUser u)); try done.
    + by rewrite <- list_fmap_compose, list_fmap_id.
    + apply list_elem_of_fmap. eauto.
Qed.

(** ** Listings *)

(** The view a listing request runs on once [get_permissions] has stored
    its per-action list. *)
Lemma ListingViewset_check_permissions action kwargs request :
  check_each DEFAULT_PERMISSION_CLASSES request = Ok tt ->
  exists self',
    check_permissions DEFAULT_PERMISSION_CLASSES
      (mk_view ListingViewset action kwargs request) = (self', Ok tt) /\
    self' = fst (ListingViewset_get_permissions DEFAULT_PERMISSION_CLASSES
                   (mk_view ListingViewset action kwargs request)) /\
    v_dict self' !! "permission_classes" = None /\
    v_dict self' !! "queryset" = None /\
    v_dict self' !! "lookup_field" = None /\
    v_dict self' !! "lookup_url_kwarg" = None.
Proof.
  intros Hok. eexists. split; [|split; [reflexivity|]].
  - unfold check_permissions, get_permissions. simpl v_class. cbv iota.
    pose proof (ListingViewset_permissions_default
                  (mk_view ListingViewset action kwargs request)
                  eq_refl eq_refl) as Hd.
    unfold get_permissions in Hd. simpl v_class in Hd. cbv iota in Hd.
    destruct (ListingViewset_get_permissions _ _) as [self' r] eqn:Hg.
    simpl in Hd. subst r.
    assert (v_request self' = request) as ->.
    { unfold ListingViewset_get_permissions in Hg.
      injection Hg as <- _. by case_bool_decide. }
    by rewrite Hok.
  - unfold ListingViewset_get_permissions.
    case_bool_decide; simpl; rewrite !lookup_insert_ne by done; done.
Qed.

Lemma listing_view_attributes self :
  v_class self = ListingViewset ->
  v_dict self !! "permission_classes" = None ->
  v_dict self !! "queryset" = None ->
  v_dict self !! "lookup_field" = None ->
  v_dict self !! "lookup_url_kwarg" = None ->
  forall s,
    get_queryset' self s = (s, Ok (OListing <$> listings s)) /\
    lookup_field DEFAULT_PERMISSION_CLASSES self = Ok "pk" /\
    lookup_url_kwarg DEFAULT_PERMISSION_CLASSES self = Ok "pk" /\
    get_serializer_class DEFAULT_PERMISSION_CLASSES self
    = Ok (ListingViewset_get_serializer_class self).
Proof.
  intros Hc Hp Hq Hf Hk s.
  unfold get_queryset, GenericAPIView_get_queryset, lookup_field,
    lookup_url_kwarg, lookup_field, get_serializer_class, bind, lift, getattr.
  rewrite Hc, Hq, Hf, Hk. done.
Qed.

(** X7.  GET /listings/ has no per-user filter: whenever the permission
    classes in force admit the request, the answer is 200 with every
    stored listing in the summary representation, for any requester. *)
Theorem listings_list_is_unfiltered request s :
  req_method request = GET ->
  check_each DEFAULT_PERMISSION_CLASSES request = Ok tt ->
  serve DEFAULT_PERMISSION_CLASSES owner_field py_int run_validation
    request ["listings"] s
  = Some (s, Responded
               {| resp_data := PMany ListingSerializer (OListing <$> listings s);
                  resp_status := 200 |}).
Proof.
  intros Hm Hok. unfold serve. rewrite resolve_listings_list, Hm. f_equal.
  match goal with
  | |- _ = ?rhs =>
      change (dispatch' (mk_view ListingViewset (Some "list") ∅ request) s = rhs)
  end.
  unfold dispatch.
  destruct (ListingViewset_check_permissions (Some "list") ∅ request Hok)
    as (self' & Hc & Hself & Hp & Hq & Hf & Hk).
  rewrite Hc.
  assert (v_class self' = ListingViewset /\ v_action self' = Some "list")
    as [Hcl Hact].
  { subst self'. unfold ListingViewset_get_permissions.
    by case_bool_decide. }
  destruct (listing_view_attributes self' Hcl Hp Hq Hf Hk s)
    as (Hqs & _ & _ & Hser).
  unfold handler. rewrite Hact. simpl. unfold list_action, bind, lift, ret.
  rewrite Hqs, Hser, ListingViewset_serializer_summary; [done|].
  by rewrite Hact.
Qed.

(** X8.  Which requests may delete a listing is decided by the settings'
    default permission classes alone: when they admit the request and the
    listing, DELETE /listings/<key>/ answers 204, the listing table loses
    exactly the row with that key and the user table is as before; the
    lists [get_permissions] computes play no part.  (Nothing is said here
    of the rows that refer to the listing.) *)
Theorem listing_destroy_by_default request seg l s :
  req_method request = DELETE ->
  valid_segment seg = true ->
  py_int seg = Some (listing_pk l) ->
  l ∈ listings s ->
  NoDup (listing_pk <$> listings s) ->
  check_each DEFAULT_PERMISSION_CLASSES request = Ok tt ->
  check_each_object owner_field DEFAULT_PERMISSION_CLASSES request (OListing l)
  = Ok tt ->
  exists s',
    serve DEFAULT_PERMISSION_CLASSES owner_field py_int run_validation
      request ["listings"; seg] s
    = Some (s', Responded {| resp_data := PNone; resp_status := 204 |}) /\
    listings s'
    = filter (fun r => listing_pk r <> listing_pk l) (listings s) /\
    users s' = users s.
Proof.
  intros Hm Hv Hpk Hin Hnd Hok Hobj.
  exists (delete_listings (fun r => listing_pk r = listing_pk l) s).
  split; [|by split].
  unfold serve. rewrite resolve_listings_detail, Hv, Hm. f_equal.
  match goal with
  | |- _ = ?rhs =>
      change (dispatch'
                (mk_view ListingViewset (Some "destroy") {[ "pk" := seg ]}
                   request) s = rhs)
  end.
  unfold dispatch.
  destruct (ListingViewset_check_permissions (Some "destroy") {[ "pk" := seg ]}
              request Hok)
    as (self' & Hc & Hself & Hp & Hq & Hf & Hk).
  rewrite Hc.
  assert (v_class self' = ListingViewset /\ v_action self' = Some "destroy" /\
          v_kwargs self' = {[ "pk" := seg ]} /\ v_request self' = request)
    as (Hcl & Hact & Hkw & Hrq).
  { subst self'. unfold ListingViewset_get_permissions.
    by case_bool_decide. }
  destruct (listing_view_attributes self' Hcl Hp Hq Hf Hk s)
    as (Hqs & Hlf & Hlk & _).
  assert (get_object' self' s = (s, Ok (OListing l))) as Hget.
  { apply (get_object_found self' s (OListing <$> listings s) seg);
      try done.
    - by rewrite Hkw, lookup_singleton_eq.
    - by rewrite <- list_fmap_compose.
    - apply list_elem_of_fmap. eauto.
    - unfold check_object_permissions.
      pose proof (ListingViewset_permissions_default self' Hcl Hp) as Hd.
      destruct (get_permissions _ self') as [self2 r] eqn:Hg.
      apply get_permissions_view in Hg as (_ & Hrq2 & _ & _).
      simpl in Hd. subst r. simpl. by rewrite Hrq2, Hrq. }
  unfold handler. rewrite Hact. simpl. unfold destroy, bind.
  by rewrite Hget.
Qed.

(** ** Bookings *)

Lemma NoDup_fmap_filter {A} (key : A -> Z) (P : A -> Prop)
    `{forall x, Decision (P x)} (l : list A) :
  NoDup (key <$> l) -> NoDup (key <$> filter P l).
Proof.
  intros Hnd. eapply sublist_NoDup; [exact Hnd|].
  apply fmap_sublist, sublist_filter.
Qed.

(** X9.  What the list shows can be fetched: for an authenticated
    principal P, GET /bookings/<key>/ on a booking of P answers 200 with
    that booking (booking keys being unique); the object-level ownership
    check lets the safe method through. *)
Theorem booking_retrieve_own request P seg b s :
  req_user request = AuthUser P ->
  req_method request = GET ->
  valid_segment seg = true ->
  py_int seg = Some (booking_pk b) ->
  b ∈ bookings s ->
  booking_guest b = P ->
  NoDup (booking_pk <$> bookings s) ->
  serve DEFAULT_PERMISSION_CLASSES owner_field py_int run_validation
    request ["bookings"; seg] s
  = Some (s, Responded {| resp_data := POne BookingSerializer (OBooking b);
                          resp_status := 200 |}).
Proof.
  intros Hu Hm Hv Hpk Hin Hg Hnd.
  unfold serve. rewrite resolve_bookings_detail, Hm by done. f_equal.
  match goal with
  | |- _ = ?rhs =>
      change (dispatch'
                (mk_view BookingViewset (Some "retrieve") {[ "pk" := seg ]}
                   request) s = rhs)
  end.
  unfold dispatch.
  rewrite (BookingViewset_check_permissions _ _ _ P) by done.
  unfold handler. simpl. unfold retrieve, bind.
  destruct (BookingViewset_lookup (Some "retrieve") {[ "pk" := seg ]} request)
    as [Hlf Hlk].
  rewrite (get_object_found _ s
             (OBooking <$> filter (fun x => booking_guest x = P) (bookings s))
             seg (OBooking b)); try done.
  - by apply BookingViewset_queryset.
  - rewrite <- list_fmap_compose. by apply (NoDup_fmap_filter booking_pk).
  - apply list_elem_of_fmap. exists b. split; [done|].
    by apply list_elem_of_filter.
  - unfold check_object_permissions.
    replace (get_permissions _ _)
      with (mk_view BookingViewset (Some "retrieve") {[ "pk" := seg ]} request,
            Ok (A := list permission_class) [IsAuthenticated; IsOwnerOrReadOnly])
      by reflexivity.
    simpl. unfold IsOwnerOrReadOnly_has_object_permission. by rewrite Hm.
Qed.

(** ** Reviews *)

Lemma review_get_queryset_raises self s :
  v_class self = ReviewViewSet ->
  v_kwargs self !! "listing_slug" = None ->
  get_queryset' self s = (s, Raise (KeyError "listing_slug")).
Proof.
  intros Hc Hk.
  unfold get_queryset, ReviewViewSet_get_queryset, bind, lift, kwargs_item.
  by rewrite Hc, Hk.
Qed.

Lemma review_get_object_raises self s :
  v_class self = ReviewViewSet ->
  v_kwargs self !! "listing_slug" = None ->
  get_object' self s = (s, Raise (KeyError "listing_slug")).
Proof.
  intros Hc Hk. unfold get_object, bind.
  by rewrite review_get_queryset_raises.
Qed.

Lemma review_routed_action mapping m :
  mapping ∈ [list_mapping; detail_mapping] ->
  (m = OPTIONS /\ action_of mapping m = Some "metadata") \/
  (m <> OPTIONS /\
   action_of mapping m
   ∈ [None; Some "list"; Some "create"; Some "retrieve"; Some "update";
      Some "partial_update"; Some "destroy"]).
Proof.
  intros Hmap.
  repeat (apply elem_of_cons in Hmap as [->|Hmap]);
    [ | | by apply elem_of_nil in Hmap ];
    destruct m; try (left; split; reflexivity);
    right; (split; [discriminate|]); vm_compute; repeat constructor.
Qed.

(** Whatever handler a review route selects, it raises before it reads or
    writes a review. *)
Lemma review_handler action kwargs request s :
  kwargs !! "listing_slug" = None ->
  kwargs !! "listing<-slug" = None ->
  action ∈ [None; Some "list"; Some "create"; Some "retrieve"; Some "update";
            Some "partial_update"; Some "destroy"] ->
  exists e,
    handler' (mk_view ReviewViewSet action kwargs request) s = (s, Raise e) /\
    e ∈ [MethodNotAllowed; ValidationError;
         KeyError "listing_slug"; KeyError "listing<-slug"].
Proof.
  intros Hslug Hkey Ha.
  pose proof (review_get_queryset_raises
                (mk_view ReviewViewSet action kwargs request) s eq_refl Hslug)
    as Hq.
  pose proof (review_get_object_raises
                (mk_view ReviewViewSet action kwargs request) s eq_refl Hslug)
    as Ho.
  repeat (apply elem_of_cons in Ha as [->|Ha]);
    [ .. | by apply elem_of_nil in Ha ];
    unfold handler; simpl;
    unfold list_action, create, retrieve, update, destroy, bind, raise, ret.
  - eexists; split; [reflexivity|repeat constructor].
  - rewrite Hq. eexists; split; [reflexivity|repeat constructor].
  - unfold lift.
    replace (get_serializer_class _
               (mk_view ReviewViewSet (Some "create") kwargs request))
      with (Ok (A := serializer_class) ReviewSerializer) by reflexivity.
    unfold validated. simpl.
    destruct (run_validation ReviewSerializer (req_data request)).
    + unfold perform_create, ReviewViewSet_perform_create, bind, lift,
        kwargs_item. simpl. rewrite Hkey.
      eexists; split; [reflexivity|repeat constructor].
    + eexists; split; [reflexivity|repeat constructor].
  - rewrite Ho. eexists; split; [reflexivity|repeat constructor].
  - rewrite Ho. eexists; split; [reflexivity|repeat constructor].
  - rewrite Ho. eexists; split; [reflexivity|repeat constructor].
  - rewrite Ho. eexists; split; [reflexivity|repeat constructor].
Qed.

(** X10.  No request routed to the review view set reads or writes a
    review: whatever the method, the requester and the permission classes
    in force, the store is left as it was, and the request is either an
    OPTIONS request that passed the permission check (left to the metadata
    class), or it fails: with the [KeyError] of a keyword argument the
    route does not supply, which no handler answers, or with an error
    response 400, 401, 403 or 405. *)
Theorem review_routes_serve_nothing request path a kw s :
  resolve DEFAULT_PERMISSION_CLASSES (req_method request) path
  = Some (ReviewViewSet, a, kw) ->
  exists o,
    serve DEFAULT_PERMISSION_CLASSES owner_field py_int run_validation
      request path s = Some (s, o) /\
    ((o = MetadataAnswer /\ req_method request = OPTIONS) \/
     (exists k, k ∈ ["listing_slug"; "listing<-slug"] /\
                o = ServerError (KeyError k)) \/
     (exists code, code ∈ [400; 401; 403; 405] /\ o = error_response code)).
Proof.
  intros Hr. unfold serve. rewrite Hr.
  assert (kw !! "listing_slug" = None /\ kw !! "listing<-slug" = None /\
          ((req_method request = OPTIONS /\ a = Some "metadata") \/
           (req_method request <> OPTIONS /\
            a ∈ [None; Some "list"; Some "create"; Some "retrieve";
                 Some "update"; Some "partial_update"; Some "destroy"])))
    as (Hslug & Hkey & Ha).
  { apply resolve_inv in Hr
      as [(r & Hin & _ & Hc & _)
         |[(r & seg & Hin & _ & Hc & _)
          |[(seg & _ & Hc & _)
           |[(seg & _ & _ & _ & -> & ->)
            |(seg & seg2 & _ & _ & _ & _ & -> & ->)]]]].
    - repeat (apply elem_of_cons in Hin as [->|Hin]); try done.
      by apply elem_of_nil in Hin.
    - repeat (apply elem_of_cons in Hin as [->|Hin]); try done.
      by apply elem_of_nil in Hin.
    - done.
    - rewrite !lookup_singleton_ne by done.
      repeat split. apply review_routed_action. repeat constructor.
    - rewrite !lookup_insert_ne, !lookup_singleton_ne by done.
      repeat split. apply review_routed_action. repeat constructor. }
  fold (mk_view ReviewViewSet a kw request). unfold dispatch.
  unfold check_permissions.
  rewrite ReviewViewSet_permissions_default by done.
  destruct (check_each DEFAULT_PERMISSION_CLASSES _) as [[]|e] eqn:Hc.
  - destruct Ha as [[Hm ->]|[Hm Ha]]; simpl is_metadata.
    { eexists; split; [reflexivity|]. by left. }
    assert (is_metadata a = false) as ->.
    { repeat (apply elem_of_cons in Ha as [->|Ha]); try done.
      by apply elem_of_nil in Ha. }
    destruct (review_handler a kw request s Hslug Hkey Ha) as (e & -> & He).
    eexists; split; [reflexivity|]. right.
    repeat (apply elem_of_cons in He as [->|He]);
      [ | | | | by apply elem_of_nil in He ]; simpl.
    + right. exists 405. split; [repeat constructor|done].
    + right. exists 400. split; [repeat constructor|done].
    + left. exists "listing_slug". split; [repeat constructor|done].
    + left. exists "listing<-slug". split; [repeat constructor|done].
  - apply check_each_raise in Hc as ->. simpl v_request.
    rewrite handle_exception_denied.
    eexists; split; [reflexivity|]. right; right.
    destruct (is_authenticated (req_user request)),
      (req_authenticate_header request);
      eexists; (split; [|reflexivity]); repeat constructor.
Qed.

(** X11.  [ReviewViewSet.get_queryset] as a method: on a view whose
    keyword arguments do hold ['listing_slug'], the query set consists of
    exactly the reviews that refer to a stored listing with that slug. *)
Theorem review_queryset_by_slug self slug s :
  v_class self = ReviewViewSet ->
  v_kwargs self !! "listing_slug" = Some slug ->
  exists q,
    get_queryset DEFAULT_PERMISSION_CLASSES self s = (s, Ok q) /\
    forall o,
      o ∈ q <->
      exists r l, o = OReview r /\ r ∈ reviews s /\ l ∈ listings s /\
                  listing_pk l = review_listing r /\ listing_slug l = slug.
Proof.
  intros Hc Hk. eexists. split; [by apply ReviewViewSet_get_queryset_slug|].
  intros o. rewrite list_elem_of_fmap. split.
  - intros (r & -> & Hr). apply list_elem_of_filter in Hr as [Hs Hr].
    unfold listing_has_slug in Hs. apply existsb_exists in Hs as (l & Hl & Hs).
    apply andb_true_iff in Hs as [Hpk Hsl].
    apply Z.eqb_eq in Hpk. apply String.eqb_eq in Hsl.
    exists r, l. by rewrite <- list_elem_of_In in Hl.
  - intros (r & l & -> & Hr & Hl & Hpk & Hsl). exists r. split; [done|].
    apply list_elem_of_filter. split; [|done].
    unfold listing_has_slug. apply existsb_exists. exists l.
    rewrite <- list_elem_of_In. split; [done|].
    apply andb_true_iff. by rewrite Z.eqb_eq, String.eqb_eq.
Qed.

(** ** [ListingViewset.get_permissions] on the instance *)

(** X12.  [ListingViewset.get_permissions] changes the instance in one
    place only: it binds [permissions_classes] to [[AllowAny]] on the list
    and retrieve actions and to [[IsAuthenticated, IsOwnerOrReadOnly]] on
    every other, and every other attribute reads as before the call. *)
Theorem ListingViewset_get_permissions_frame self name :
  name <> "permissions_classes" ->
  getattr DEFAULT_PERMISSION_CLASSES
    (fst (ListingViewset_get_permissions DEFAULT_PERMISSION_CLASSES self)) name
  = getattr DEFAULT_PERMISSION_CLASSES self name /\
  getattr DEFAULT_PERMISSION_CLASSES
    (fst (ListingViewset_get_permissions DEFAULT_PERMISSION_CLASSES self))
    "permissions_classes"
  = Ok (APerms (if bool_decide (v_action self ∈ [Some "list"; Some "retrieve"])
                then [AllowAny]
                else [IsAuthenticated; IsOwnerOrReadOnly])).
Proof.
  intros Hname. unfold ListingViewset_get_permissions, getattr.
  case_bool_decide; simpl;
    rewrite lookup_insert_ne by done; rewrite lookup_insert_eq; done.
Qed.

(** ** Creation and the request body *)

Lemma kwargs_override_insert (k : string) (u x : fval) (vd : gmap string fval) :
  {[ k := u ]} ∪ <[ k := x ]> vd = {[ k := u ]} ∪ vd.
Proof.
  apply map_eq. intros i. destruct (decide (i = k)) as [->|Hne].
  - by rewrite !kwargs_override.
  - rewrite !lookup_union_r by (by apply lookup_singleton_ne).
    by apply lookup_insert_ne.
Qed.

(** X13.  An owner sent for a listing, or a guest sent for a booking, has
    no influence on creation at all: with or without that entry in the
    validated data, [perform_create] leaves the same store and the same
    instance, or raises the same exception. *)
Theorem create_ignores_supplied_principal self c vd x s :
  (v_class self = ListingViewset ->
   created (perform_create self
              {| ser_class := c; ser_instance := None;
                 ser_validated_data := <[ "owner" := x ]> vd |} s)
   = created (perform_create self
                {| ser_class := c; ser_instance := None;
                   ser_validated_data := vd |} s)) /\
  (v_class self = BookingViewset ->
   created (perform_create self
              {| ser_class := c; ser_instance := None;
                 ser_validated_data := <[ "guest" := x ]> vd |} s)
   = created (perform_create self
                {| ser_class := c; ser_instance := None;
                   ser_validated_data := vd |} s)).
Proof.
  split; intros Hc; unfold perform_create; rewrite Hc;
    unfold ListingViewset_perform_create, BookingViewset_perform_create,
      Serializer_save, bind; simpl;
    rewrite kwargs_override_insert;
    by destruct (objects_create _ _ s) as [s2 [o|e]].
Qed.

End Properties.

(** * The statements on the sample deployment *)

(** Guest 20 cancels the confirmed booking 1: 200, and the table is as
    before. *)
Example cancel_confirmed_end_to_end :
  sample_serve (sample_request POST (AuthUser 20)) ["bookings"; "1"; "cancel"]
    sample_store
  = Some (sample_store,
          Responded {| resp_data := PDict [("status", "Booking cancelled")];
                       resp_status := 200 |}).
Proof. vm_compute. reflexivity. Qed.

(** Guest 20 cancels the pending booking 2: no response, an exception. *)
Example cancel_pending_end_to_end :
  sample_serve (sample_request POST (AuthUser 20)) ["bookings"; "2"; "cancel"]
    sample_store
  = Some (sample_store,
          ServerError
            (AttributeError "rest_framework.status" "HTT_400_BAD_REQUEST")).
Proof. vm_compute. reflexivity. Qed.

(** Guest 20 asks for booking 3, which is guest 30's. *)
Example foreign_booking_end_to_end :
  sample_serve (sample_request GET (AuthUser 20)) ["bookings"; "3"] sample_store
  = Some (sample_store, error_response 404).
Proof. vm_compute. reflexivity. Qed.

(** The listing with slug [villa-1] and key 1, asked for by slug and by
    key. *)
Example listing_by_slug_end_to_end :
  sample_serve (sample_request GET AnonymousUser) ["listings"; "villa-1"]
    sample_store
  = Some (sample_store, error_response 404).
Proof. vm_compute. reflexivity. Qed.

Example listing_by_pk_end_to_end :
  sample_serve (sample_request GET AnonymousUser) ["listings"; "1"] sample_store
  = Some (sample_store,
          Responded {| resp_data := POne ListingSerializer (OListing villa);
                       resp_status := 200 |}).
Proof. vm_compute. reflexivity. Qed.

(** The reviews of listing 1, by slug and by key. *)
Example reviews_end_to_end :
  sample_serve (sample_request GET AnonymousUser)
    ["listings"; "villa-1"; "reviews"] sample_store
  = Some (sample_store, ServerError (KeyError "listing_slug")) /\
  sample_serve (sample_request GET AnonymousUser)
    ["listings"; "1"; "reviews"] sample_store
  = Some (sample_store, ServerError (KeyError "listing_slug")) /\
  sample_serve (sample_request POST (AuthUser 20))
    ["listings"; "1"; "reviews"] sample_store
  = Some (sample_store, ServerError (KeyError "listing<-slug")).
Proof. vm_compute. auto. Qed.

(** An unauthenticated POST to the listing collection. *)
Example anonymous_listing_create_end_to_end :
  sample_serve (sample_request POST AnonymousUser) ["listings"] sample_store
  = Some (sample_store, ServerError ValueError).
Proof. vm_compute. reflexivity. Qed.

(** With the permission lists the class bodies spell out in force
    instead, the same unauthenticated POST would be refused. *)
Example declared_permissions_refuse_anonymous :
  check_each [IsAuthenticated; IsOwnerOrReadOnly]
    (sample_request POST AnonymousUser) = Raise NotAuthenticated.
Proof. reflexivity. Qed.

Lemma cancel_confirmed_keeps_status_witness :
  exists s',
    BookingViewset_cancel [AllowAny] sample_owner_field sample_int
      (cancel_view "1") sample_store
    = (s', Ok {| resp_data := PDict [("status", "Booking cancelled")];
                 resp_status := 200 |}) /\
    booking1 ∈ bookings s' /\
    (forall b', b' ∈ bookings s' -> booking_pk b' = booking_pk booking1 ->
                booking_status b' = CONFIRMED /\ booking_status b' <> CANCELLED).
Proof.
  apply (cancel_confirmed_keeps_status [AllowAny] sample_owner_field sample_int
           (cancel_view "1") sample_store sample_store booking1).
  - vm_compute. reflexivity.
  - reflexivity.
Defined.

Lemma cancel_unconfirmed_raises_witness :
  BookingViewset_cancel [AllowAny] sample_owner_field sample_int
    (cancel_view "2") sample_store
  = (sample_store,
     Raise (AttributeError "rest_framework.status" "HTT_400_BAD_REQUEST")) /\
  handle_exception (v_request (cancel_view "2"))
    (AttributeError "rest_framework.status" "HTT_400_BAD_REQUEST")
  = ServerError (AttributeError "rest_framework.status" "HTT_400_BAD_REQUEST").
Proof.
  apply (cancel_unconfirmed_raises [AllowAny] sample_owner_field sample_int
           (cancel_view "2") sample_store sample_store booking2).
  - vm_compute. reflexivity.
  - discriminate.
Defined.

Lemma bookings_scoped_to_requester_witness :
  sample_serve (sample_request DELETE (AuthUser 20)) ["bookings"; "3"] sample_store
  = Some (sample_store, error_response 404).
Proof.
  pose proof (bookings_scoped_to_requester [AllowAny] sample_owner_field
                sample_int sample_validation
                (sample_request DELETE (AuthUser 20)) 20 sample_store eq_refl)
    as (_ & _ & Hforeign).
  destruct (Hforeign "3") as [Hdetail _].
  - reflexivity.
  - intros b Hb Hpk.
    repeat (apply elem_of_cons in Hb as [->|Hb]);
      [discriminate Hpk | discriminate Hpk | discriminate | by apply elem_of_nil in Hb].
  - apply Hdetail. simpl. repeat constructor.
Defined.

Lemma create_binds_requester_witness :
  (exists u l,
     req_user hut_request = AuthUser u /\
     listings store_with_hut = (listings sample_store ++ [l])%list /\
     listing_owner l = u /\
     l = hut) /\
  (exists u b,
     req_user booking_request = AuthUser u /\
     bookings store_with_booking4 = (bookings sample_store ++ [b])%list /\
     booking_guest b = u /\
     b = booking4).
Proof.
  split.
  - destruct (create_binds_requester [AllowAny] sample_owner_field sample_int
                sample_validation hut_request sample_store store_with_hut
                {| resp_data := POne ListingSerializer (OListing hut);
                   resp_status := 201 |} eq_refl eq_refl) as [Hlisting _].
    destruct Hlisting as (u & l & Hu & Hl & Ho & Hr).
    + vm_compute. reflexivity.
    + exists u, l. repeat split; try assumption.
      simpl in Hr. by injection Hr as <-.
  - destruct (create_binds_requester [AllowAny] sample_owner_field sample_int
                sample_validation booking_request sample_store
                store_with_booking4
                {| resp_data := POne BookingSerializer (OBooking booking4);
                   resp_status := 201 |} eq_refl eq_refl) as [_ Hbooking].
    destruct Hbooking as (u & b & Hu & Hb & Ho & Hr).
    + vm_compute. reflexivity.
    + exists u, b. repeat split; try assumption.
      simpl in Hr. by injection Hr as <-.
Defined.

Lemma listing_create_admits_anonymous_witness :
  snd (get_permissions [IsAuthenticated]
         (mk_view ListingViewset (Some "create") ∅
            (sample_request POST AnonymousUser)))
  = Ok [IsAuthenticated] /\
  exists o,
    sample_serve (sample_request POST AnonymousUser) ["listings"] sample_store
    = Some (sample_store, o) /\
    (o = error_response 400 \/ o = ServerError ValueError).
Proof.
  apply (listing_create_admits_anonymous [IsAuthenticated] sample_owner_field
           sample_int sample_validation
           (sample_request POST AnonymousUser) sample_store);
    reflexivity.
Defined.

Lemma listing_retrieve_selects_summary_witness :
  get_serializer_class [AllowAny]
    (mk_view ListingViewset (Some "retrieve") {[ "pk" := "1" ]}
       (sample_request GET AnonymousUser))
  = Ok ListingSerializer /\
  ListingViewset_get_serializer_class
    (mk_view ListingViewset (Some "retrieve") {[ "pk" := "1" ]}
       (sample_request GET AnonymousUser))
  <> ListingDetailSerializer.
Proof.
  apply (listing_retrieve_selects_summary [AllowAny]); reflexivity.
Defined.

Lemma review_create_raises_KeyError_witness :
  perform_create
    (mk_view ReviewViewSet (Some "create") {[ "listing_pk" := "1" ]}
       (sample_request POST (AuthUser 20)))
    {| ser_class := ReviewSerializer; ser_instance := None;
       ser_validated_data := ∅ |}
    sample_store
  = (sample_store, Raise (KeyError "listing<-slug")).
Proof.
  apply (review_create_raises_KeyError [AllowAny] "1" ReviewViewSet
           (Some "create") {[ "listing_pk" := "1" ]}).
  vm_compute. reflexivity.
Defined.

Lemma review_queryset_raises_KeyError_witness :
  get_queryset [AllowAny]
    (mk_view ReviewViewSet (Some "list") {[ "listing_pk" := "villa-1" ]}
       (sample_request GET AnonymousUser))
    sample_store
  = (sample_store, Raise (KeyError "listing_slug")).
Proof.
  apply (review_queryset_raises_KeyError [AllowAny] GET "villa-1" []
           ReviewViewSet (Some "list") {[ "listing_pk" := "villa-1" ]}).
  vm_compute. reflexivity.
Defined.

Lemma review_write_admits_anonymous_witness :
  check_each [IsAuthenticatedOrReadOnly; IsOwnerOrReadOnly]
    (sample_request POST AnonymousUser)
  = Raise NotAuthenticated /\
  check_permissions [AllowAny]
    (mk_view ReviewViewSet (Some "create") {[ "listing_pk" := "1" ]}
       (sample_request POST AnonymousUser))
  = (mk_view ReviewViewSet (Some "create") {[ "listing_pk" := "1" ]}
       (sample_request POST AnonymousUser), Ok tt).
Proof.
  apply (review_write_admits_anonymous [AllowAny]
           (sample_request POST AnonymousUser) (Some "create")
           {[ "listing_pk" := "1" ]}); reflexivity.
Defined.

Lemma listing_detail_lookup_is_pk_witness :
  exists l, OListing villa = OListing l /\ l ∈ listings sample_store /\
            sample_int "1" = Some (listing_pk l).
Proof.
  apply (listing_detail_lookup_is_pk [AllowAny] sample_owner_field sample_int
           GET "1" ListingViewset (Some "retrieve") {[ "pk" := "1" ]}
           (sample_request GET AnonymousUser) sample_store sample_store
           (OListing villa)).
  - vm_compute. reflexivity.
  - vm_compute. reflexivity.
Defined.

(** * The rest of the API on the sample deployment *)

(** A booking created through the API: user 20 posts a body that names
    user 30 as guest; the stored booking has guest 20 and is PENDING. *)
Example booking_create_example :
  sample_serve booking_request ["bookings"] sample_store
  = Some (store_with_booking4,
          Responded {| resp_data := POne BookingSerializer (OBooking booking4);
                       resp_status := 201 |}).
Proof. vm_compute. reflexivity. Qed.

(** The route table on sample paths.  A dot in the instance segment is
    refused by the lookup pattern of [resolve]; [urlpatterns] reads such a
    last segment as an instance followed by a format suffix.  The review
    routes have no suffixed copies, and [api-auth] is joined to the login
    and logout routes without a slash. *)
Example route_examples :
  resolve [AllowAny] POST ["bookings"; "1"; "cancel"]
  = Some (BookingViewset, Some "cancel", {[ "pk" := "1" ]}) /\
  resolve [AllowAny] GET ["listings"; "villa.1"] = None /\
  urlpatterns [AllowAny] GET ["listings"; "1.json"]
  = Some (ViewSetRoute ListingViewset (Some "retrieve")
            (<[ "format" := "json" ]> {[ "pk" := "1" ]})) /\
  urlpatterns [AllowAny] GET ["listings"; "villa.1"]
  = Some (ViewSetRoute ListingViewset (Some "retrieve")
            (<[ "format" := "1" ]> {[ "pk" := "villa" ]})) /\
  urlpatterns [AllowAny] GET ["listings.json"]
  = Some (ViewSetRoute ListingViewset (Some "list")
            {[ "format" := "json" ]}) /\
  urlpatterns [AllowAny] POST ["bookings"; "1"; "cancel.json"]
  = Some (ViewSetRoute BookingViewset (Some "cancel")
            (<[ "format" := "json" ]> {[ "pk" := "1" ]})) /\
  urlpatterns [AllowAny] GET ["listings"; "1"; "reviews.json"] = None /\
  urlpatterns [AllowAny] GET ["listings"; "1.JSON"] = None /\
  urlpatterns [AllowAny] GET [] = Some (ApiRoot ∅) /\
  urlpatterns [AllowAny] GET ["api-authlogin"] = Some (AuthPage "login") /\
  urlpatterns [AllowAny] GET ["api-auth"] = None.
Proof. repeat split; vm_compute; reflexivity. Qed.

Lemma safe_methods_read_only_witness :
  is_safe (req_method (sample_request GET (AuthUser 20))) = true /\
  sample_store = sample_store.
Proof.
  split; [reflexivity|].
  apply (safe_methods_read_only [AllowAny] sample_owner_field sample_int
           sample_validation (sample_request GET (AuthUser 20))
           ["bookings"; "1"] sample_store sample_store
           (Responded {| resp_data := POne BookingSerializer (OBooking booking1);
                         resp_status := 200 |})).
  - reflexivity.
  - vm_compute. reflexivity.
Defined.

Lemma sample_store_booking_keys : NoDup (booking_pk <$> bookings sample_store).
Proof. compute_done. Defined.

Lemma cancel_route_never_changes_store_witness :
  sample_store = sample_store /\
  sample_serve (sample_request POST (AuthUser 20)) ["bookings"; "1"; "cancel"]
    sample_store
  = Some (sample_store,
          Responded {| resp_data := PDict [("status", "Booking cancelled")];
                       resp_status := 200 |}).
Proof.
  apply (cancel_route_never_changes_store [AllowAny] sample_owner_field
           sample_int sample_validation (sample_request POST (AuthUser 20))
           "1" sample_store sample_store).
  - exact sample_store_booking_keys.
  - vm_compute. reflexivity.
Defined.

Lemma cancel_route_post_only_witness :
  sample_serve (sample_request GET (AuthUser 20)) ["bookings"; "1"; "cancel"]
    sample_store
  = Some (sample_store, error_response 405).
Proof.
  apply (cancel_route_post_only [AllowAny] sample_owner_field sample_int
           sample_validation (sample_request GET (AuthUser 20)) 20 "1"
           sample_store).
  - reflexivity.
  - reflexivity.
  - repeat constructor.
Defined.


Lemma users_open_to_authenticated_witness :
  sample_serve (sample_request GET (AuthUser 20)) ["users"; "30"] sample_store
  = Some (sample_store,
          Responded {| resp_data := POne UserSerializer (OUser 30);
                       resp_status := 200 |}).
Proof.
  destruct (users_open_to_authenticated [AllowAny] sample_owner_field
              sample_int sample_validation (sample_request GET (AuthUser 20))
              20 sample_store eq_refl eq_refl) as [_ Hretrieve].
  apply Hretrieve.
  - reflexivity.
  - reflexivity.
  - repeat constructor.
  - compute_done.
Defined.

Lemma listings_list_is_unfiltered_witness :
  sample_serve (sample_request GET AnonymousUser) ["listings"] sample_store
  = Some (sample_store,
          Responded {| resp_data := PMany ListingSerializer [OListing villa];
                       resp_status := 200 |}).
Proof.
  apply (listings_list_is_unfiltered [AllowAny] sample_owner_field sample_int
           sample_validation (sample_request GET AnonymousUser) sample_store);
    reflexivity.
Defined.

(** Under the stock default an unauthenticated DELETE removes user 10's
    listing. *)
Lemma listing_destroy_by_default_witness :
  exists s',
    sample_serve (sample_request DELETE AnonymousUser) ["listings"; "1"]
      sample_store
    = Some (s', Responded {| resp_data := PNone; resp_status := 204 |}) /\
    listings s'
    = filter (fun r => listing_pk r <> listing_pk villa) (listings sample_store) /\
    users s' = users sample_store.
Proof.
  apply (listing_destroy_by_default [AllowAny] sample_owner_field sample_int
           sample_validation (sample_request DELETE AnonymousUser) "1" villa
           sample_store).
  - reflexivity.
  - reflexivity.
  - reflexivity.
  - repeat constructor.
  - compute_done.
  - reflexivity.
  - reflexivity.
Defined.

Lemma booking_retrieve_own_witness :
  sample_serve (sample_request GET (AuthUser 20)) ["bookings"; "2"] sample_store
  = Some (sample_store,
          Responded {| resp_data := POne BookingSerializer (OBooking booking2);
                       resp_status := 200 |}).
Proof.
  apply (booking_retrieve_own [AllowAny] sample_owner_field sample_int
           sample_validation (sample_request GET (AuthUser 20)) 20 "2" booking2
           sample_store).
  - reflexivity.
  - reflexivity.
  - reflexivity.
  - reflexivity.
  - repeat constructor.
  - reflexivity.
  - exact sample_store_booking_keys.
Defined.

Lemma review_routes_serve_nothing_witness :
  exists o,
    sample_serve (sample_request GET AnonymousUser)
      ["listings"; "1"; "reviews"] sample_store
    = Some (sample_store, o) /\
    ((o = MetadataAnswer /\
      req_method (sample_request GET AnonymousUser) = OPTIONS) \/
     (exists k, k ∈ ["listing_slug"; "listing<-slug"] /\
                o = ServerError (KeyError k)) \/
     (exists code, code ∈ [400; 401; 403; 405] /\ o = error_response code)).
Proof.
  apply (review_routes_serve_nothing [AllowAny] sample_owner_field sample_int
           sample_validation (sample_request GET AnonymousUser)
           ["listings"; "1"; "reviews"] (Some "list")
           {[ "listing_pk" := "1" ]} sample_store).
  vm_compute. reflexivity.
Defined.

Lemma review_queryset_by_slug_witness :
  exists q,
    get_queryset [AllowAny] (slug_view "villa-1") sample_store
    = (sample_store, Ok q) /\
    forall o,
      o ∈ q <->
      exists r l, o = OReview r /\ r ∈ reviews sample_store /\
                  l ∈ listings sample_store /\
                  listing_pk l = review_listing r /\
                  listing_slug l = "villa-1".
Proof.
  apply (review_queryset_by_slug [AllowAny] (slug_view "villa-1") "villa-1"
           sample_store); reflexivity.
Defined.

Example review_queryset_by_slug_example :
  get_queryset [AllowAny] (slug_view "villa-1") sample_store
  = (sample_store, Ok [OReview review1]) /\
  get_queryset [AllowAny] (slug_view "hut") sample_store
  = (sample_store, Ok []).
Proof. split; vm_compute; reflexivity. Qed.

Lemma ListingViewset_get_permissions_frame_witness :
  getattr [AllowAny]
    (fst (ListingViewset_get_permissions [AllowAny]
            (mk_view ListingViewset (Some "destroy") ∅
               (sample_request DELETE AnonymousUser))))
    "permission_classes"
  = getattr [AllowAny]
      (mk_view ListingViewset (Some "destroy") ∅
         (sample_request DELETE AnonymousUser))
      "permission_classes" /\
  getattr [AllowAny]
    (fst (ListingViewset_get_permissions [AllowAny]
            (mk_view ListingViewset (Some "destroy") ∅
               (sample_request DELETE AnonymousUser))))
    "permissions_classes"
  = Ok (APerms [IsAuthenticated; IsOwnerOrReadOnly]).
Proof.
  apply (ListingViewset_get_permissions_frame [AllowAny]
           (mk_view ListingViewset (Some "destroy") ∅
              (sample_request DELETE AnonymousUser))
           "permission_classes").
  discriminate.
Defined.

(** The body names user 10 as owner; the listing created is the one a body
    without an owner gives. *)
Example create_ignores_supplied_principal_example :
  created (perform_create
             (mk_view ListingViewset (Some "create") ∅ hut_request)
             {| ser_class := ListingSerializer; ser_instance := None;
                ser_validated_data := req_data hut_request |} sample_store)
  = (store_with_hut, Ok (Some (OListing hut))).
Proof. vm_compute. reflexivity. Qed.
